(** * Kamaji: the resource-reconciliation contract and its two
      drift-detecting implementations

    A shallow embedding of
    - [internal/resources/datastore/datastore_setup.go] (the datastore
      [Setup] resource: schema, user and privilege grant of a tenant), and
    - the kubeadm add-on resource ([KubeadmAddonResource]: CoreDNS and
      kube-proxy),
    together with the properties their specification states.

    Go values are modelled as follows.  A [string] is a [string]; an [error]
    is [option error] with [None] for [nil]; a Go result pair [(v, err)] is a
    Rocq pair; a pointer that may be [nil] is an [option]; the tenant object,
    which Go passes by pointer, lives in the threaded state, and so does the
    external system the resource talks to. *)

From Stdlib Require Import ZArith String.
From stdpp Require Import base list strings gmap.

Local Open Scope string_scope.
Local Open Scope list_scope.

(** ** Go errors *)

(** The error values the two files build or inspect: [fmt.Errorf] with one
    [%s] argument, [errors.Wrap] of github.com/pkg/errors, the API status
    errors of k8s.io/apimachinery, and plain errors of a driver. *)
Inductive error : Type :=
| errorString (msg : string)
| Errorf (format : string) (arg : Z)
| StatusError (reason : string) (msg : string)
| withStack (cause : error) (msg : string).

(** [errors.Wrap(err, msg)] for a non-nil [err]. *)
Definition Wrap (err : error) (msg : string) : error := withStack err msg.

(** [k8serrors.IsNotFound]: the status reason found along the chain of
    causes is [NotFound]. *)
Fixpoint IsNotFound (err : error) : bool :=
  match err with
  | StatusError reason _ => String.eqb reason "NotFound"
  | withStack cause _ => IsNotFound cause
  | errorString _ | Errorf _ _ => false
  end.

(** ** A state monad for the code that talks to the outside *)

Definition M (S A : Type) : Type := S -> A * S.

Definition ret {S A} (a : A) : M S A := fun s => (a, s).

Definition bind {S A B} (m : M S A) (k : A -> M S B) : M S B :=
  fun s => let (a, s') := m s in k a s'.

Definition gets {S A} (f : S -> A) : M S A := fun s => (f s, s).

Definition modify {S} (f : S -> S) : M S unit := fun s => (tt, f s).

Declare Scope go_scope.
Delimit Scope go_scope with go.
Notation "x <- m ;; k" := (bind m (fun x => k))
  (at level 20, m at level 99, k at level 200, only parsing) : go_scope.
Notation "' p <- m ;; k" := (bind m (fun p => k))
  (at level 20, p pattern, m at level 99, k at level 200, only parsing)
  : go_scope.
Notation "m ;;; k" := (bind m (fun _ => k))
  (at level 100, k at level 200, right associativity, only parsing)
  : go_scope.

(** ** The API types ([kamajiv1alpha1]) *)

Module v1alpha1.

Definition Time : Type := Z.

(** Modelled from the spec: the add-on configuration of the tenant's spec
    (section 3, "optional add-on configs").  The type is declared in the
    API package; the resources only test the pointer to it against nil. *)
Inductive AddonSpec : Type := addonSpec.

Record AddonsSpec : Type := {
  Spec_CoreDNS : option AddonSpec;
  Spec_KubeProxy : option AddonSpec }.

Record TenantControlPlaneSpec : Type := {
  Spec_Addons : AddonsSpec }.

(** Modelled from the spec: section 3, AddonStatus holds [Checksum]. *)
Record AddonStatus : Type := {
  Addon_Checksum : string }.

Record AddonsStatus : Type := {
  Status_CoreDNS : AddonStatus;
  Status_KubeProxy : AddonStatus }.

(** Modelled from the spec: section 3, StorageStatus; the field names are
    those the resource reads and writes. *)
Record DataStoreConfigStatus : Type := {
  Config_SecretName : string;
  Config_Checksum : string }.

Record DataStoreSetupStatus : Type := {
  Setup_Schema : string;
  Setup_User : string;
  Setup_LastUpdate : Time;
  Setup_Checksum : string }.

Record StorageStatus : Type := {
  Storage_Driver : string;
  Storage_Config : DataStoreConfigStatus;
  Storage_Setup : DataStoreSetupStatus }.

Record TenantControlPlaneStatus : Type := {
  Status_Storage : StorageStatus;
  Status_Addons : AddonsStatus }.

Record TenantControlPlane : Type := {
  Namespace : string;
  Spec : TenantControlPlaneSpec;
  Status : TenantControlPlaneStatus }.

Record DataStoreSpec : Type := {
  Spec_Driver : string }.

Record DataStore : Type := {
  DataStore_Spec : DataStoreSpec }.

(** [tcp.Status.Storage.Setup] and [tcp.Status.Storage.Config]. *)
Definition StorageSetup (tcp : TenantControlPlane) : DataStoreSetupStatus :=
  Storage_Setup (Status_Storage (Status tcp)).

Definition StorageConfig (tcp : TenantControlPlane) : DataStoreConfigStatus :=
  Storage_Config (Status_Storage (Status tcp)).

(** Assignment to [tcp.Status.Storage.Setup]. *)
Definition set_StorageSetup (s : DataStoreSetupStatus)
    (tcp : TenantControlPlane) : TenantControlPlane :=
  {| Namespace := Namespace tcp;
     Spec := Spec tcp;
     Status :=
       {| Status_Storage :=
            {| Storage_Driver := Storage_Driver (Status_Storage (Status tcp));
               Storage_Config := Storage_Config (Status_Storage (Status tcp));
               Storage_Setup := s |};
          Status_Addons := Status_Addons (Status tcp) |} |}.

(** Assignment to [tcp.Status.Addons]. *)
Definition set_StatusAddons (a : AddonsStatus)
    (tcp : TenantControlPlane) : TenantControlPlane :=
  {| Namespace := Namespace tcp;
     Spec := Spec tcp;
     Status :=
       {| Status_Storage := Status_Storage (Status tcp);
          Status_Addons := a |} |}.

End v1alpha1.

(** ** [controllerutil.OperationResult] and [utils.UpdateOperationResult] *)

Module controllerutil.

(** The results the two resources return. *)
Inductive OperationResult : Type :=
| OperationResultNone
| OperationResultCreated
| OperationResultUpdated.

#[global] Instance OperationResult_eq_dec : EqDecision OperationResult.
Proof. solve_decision. Defined.

End controllerutil.

Module utils.
Import controllerutil.

(** Modelled from the spec: [utils.UpdateOperationResult] is declared in
    another package of the repository.  Section 4.3, step 2: "the aggregate
    result is the strongest outcome observed across the three steps
    (Created > Updated > NoOp)". *)
Definition UpdateOperationResult (current op : OperationResult)
    : OperationResult :=
  match current, op with
  | OperationResultCreated, _ | _, OperationResultCreated =>
      OperationResultCreated
  | OperationResultUpdated, _ | _, OperationResultUpdated =>
      OperationResultUpdated
  | OperationResultNone, OperationResultNone => OperationResultNone
  end.

(** The precedence the spec names, as a rank. *)
Definition strength (r : OperationResult) : nat :=
  match r with
  | OperationResultNone => 0
  | OperationResultUpdated => 1
  | OperationResultCreated => 2
  end.

End utils.

(** ** The datastore connection ([datastore.Connection]) *)

Module datastore.

(** The calls of the interface, with their arguments. *)
Inductive Call : Type :=
| CallDBExists (dbName : string)
| CallCreateDB (dbName : string)
| CallDeleteDB (dbName : string)
| CallUserExists (user : string)
| CallCreateUser (user password : string)
| CallDeleteUser (user : string)
| CallGrantPrivilegesExists (user dbName : string)
| CallGrantPrivileges (user dbName : string)
| CallRevokePrivileges (user dbName : string).

#[global] Instance Call_eq_dec : EqDecision Call.
Proof. solve_decision. Defined.

(** The calls that change the datastore. *)
Definition mutating (c : Call) : bool :=
  match c with
  | CallDBExists _ | CallUserExists _ | CallGrantPrivilegesExists _ _ => false
  | _ => true
  end.

(** The calls that provision an artifact, and those that remove one. *)
Definition provisioning (c : Call) : bool :=
  match c with
  | CallCreateDB _ | CallCreateUser _ _ | CallGrantPrivileges _ _ => true
  | _ => false
  end.

Definition removing (c : Call) : bool :=
  match c with
  | CallDeleteDB _ | CallDeleteUser _ | CallRevokePrivileges _ _ => true
  | _ => false
  end.

(** One call as the resource saw it: what it asked and what came back.
    [ev_found] is the boolean of an existence check ([false] for the other
    calls, which return an error only). *)
Record Event : Type := {
  ev_call : Call;
  ev_found : bool;
  ev_err : option error }.

(** An existence check that answered without error. *)
Definition answered (c : Call) (found : bool) : Event :=
  {| ev_call := c; ev_found := found; ev_err := None |}.

(** A change that went through. *)
Definition done_ok (c : Call) : Event :=
  {| ev_call := c; ev_found := false; ev_err := None |}.

(** The interface itself, over the state [W] of the backend behind it.
    Every call may fail and may change that state. *)
Record Connection (W : Type) : Type := {
  DBExists : string -> W -> (bool * option error) * W;
  CreateDB : string -> W -> option error * W;
  DeleteDB : string -> W -> option error * W;
  UserExists : string -> W -> (bool * option error) * W;
  CreateUser : string -> string -> W -> option error * W;
  DeleteUser : string -> W -> option error * W;
  GrantPrivilegesExists : string -> string -> W -> (bool * option error) * W;
  GrantPrivileges : string -> string -> W -> option error * W;
  RevokePrivileges : string -> string -> W -> option error * W }.

Arguments DBExists {W}.
Arguments CreateDB {W}.
Arguments DeleteDB {W}.
Arguments UserExists {W}.
Arguments CreateUser {W}.
Arguments DeleteUser {W}.
Arguments GrantPrivilegesExists {W}.
Arguments GrantPrivileges {W}.
Arguments RevokePrivileges {W}.

End datastore.

(** ** The datastore Setup resource
       ([internal/resources/datastore/datastore_setup.go]) *)

Module DatastoreSetup.
Import v1alpha1 controllerutil utils.
Local Open Scope go_scope.

Record SetupResource : Type := {
  schema : string;
  user : string;
  password : string }.

(** [corev1.Secret]: only [Data] is read. *)
Record Secret : Type := {
  Data : gmap string string }.

(** [string(secret.Data[k])]: a missing key reads as the empty string. *)
Definition data_string (s : Secret) (k : string) : string :=
  default "" (Data s !! k).

Section Resource.
Context {W : Type}.

(** [Client.Get] of a Secret by namespace and name, as the management
    cluster answers it during this cycle. *)
Definition Client : Type := string -> string -> Secret * option error.

Record Setup : Type := {
  resource : SetupResource;
  client : Client;
  Connection : datastore.Connection W;
  DataStore : v1alpha1.DataStore }.

(** What a call of the resource runs on: the tenant object it was handed,
    the backend behind the connection, the calls made on the connection
    so far, and what was written to the logger. *)
Record State : Type := {
  tenant : TenantControlPlane;
  world : W;
  history : list datastore.Event;
  logged : list (string * error) }.

Definition set_tenant (tcp : TenantControlPlane) (st : State) : State :=
  {| tenant := tcp; world := world st;
     history := history st; logged := logged st |}.

(** [logger.Error(err, msg)]. *)
Definition logger_Error (err : error) (msg : string) : M State unit :=
  modify (fun st =>
    {| tenant := tenant st; world := world st;
       history := history st; logged := logged st ++ [(msg, err)] |}).

(** A call on [r.Connection] that returns [(bool, error)]. *)
Definition query (c : datastore.Call)
    (op : W -> (bool * option error) * W) : M State (bool * option error) :=
  fun st =>
    let '((found, err), w) := op (world st) in
    ((found, err),
     {| tenant := tenant st; world := w;
        history := history st ++
          [{| datastore.ev_call := c; datastore.ev_found := found;
              datastore.ev_err := err |}];
        logged := logged st |}).

(** A call on [r.Connection] that returns [error]. *)
Definition command (c : datastore.Call)
    (op : W -> option error * W) : M State (option error) :=
  fun st =>
    let '(err, w) := op (world st) in
    (err,
     {| tenant := tenant st; world := w;
        history := history st ++
          [{| datastore.ev_call := c; datastore.ev_found := false;
              datastore.ev_err := err |}];
        logged := logged st |}).

Definition conn_DBExists (r : Setup) (name : string) :=
  query (datastore.CallDBExists name)
        (datastore.DBExists (Connection r) name).
Definition conn_CreateDB (r : Setup) (name : string) :=
  command (datastore.CallCreateDB name)
          (datastore.CreateDB (Connection r) name).
Definition conn_DeleteDB (r : Setup) (name : string) :=
  command (datastore.CallDeleteDB name)
          (datastore.DeleteDB (Connection r) name).
Definition conn_UserExists (r : Setup) (u : string) :=
  query (datastore.CallUserExists u)
        (datastore.UserExists (Connection r) u).
Definition conn_CreateUser (r : Setup) (u p : string) :=
  command (datastore.CallCreateUser u p)
          (datastore.CreateUser (Connection r) u p).
Definition conn_DeleteUser (r : Setup) (u : string) :=
  command (datastore.CallDeleteUser u)
          (datastore.DeleteUser (Connection r) u).
Definition conn_GrantPrivilegesExists (r : Setup) (u s : string) :=
  query (datastore.CallGrantPrivilegesExists u s)
        (datastore.GrantPrivilegesExists (Connection r) u s).
Definition conn_GrantPrivileges (r : Setup) (u s : string) :=
  command (datastore.CallGrantPrivileges u s)
          (datastore.GrantPrivileges (Connection r) u s).
Definition conn_RevokePrivileges (r : Setup) (u s : string) :=
  command (datastore.CallRevokePrivileges u s)
          (datastore.RevokePrivileges (Connection r) u s).

(** Go's [a != b] on strings. *)
Definition string_neq (a b : string) : bool := negb (String.eqb a b).

Definition ShouldStatusBeUpdated (r : Setup)
    (tenantControlPlane : TenantControlPlane) : bool :=
  string_neq (Storage_Driver (Status_Storage (Status tenantControlPlane)))
             (Spec_Driver (DataStore_Spec (DataStore r)))
  && string_neq (Setup_Checksum (StorageSetup tenantControlPlane))
                (Config_Checksum (StorageConfig tenantControlPlane)).

Definition ShouldCleanup (r : Setup) (_ : TenantControlPlane) : bool :=
  false.

Definition CleanUp (r : Setup) : M State (bool * option error) :=
  ret (false, None).

Definition GetName (r : Setup) : string := "datastore-setup".

(** [Define] assigns [r.resource]; the updated receiver is returned next
    to the error. *)
Definition Define (r : Setup) : M State (Setup * option error) :=
  tenantControlPlane <- gets tenant ;;
  let '(secret, err) :=
    client r (Namespace tenantControlPlane)
             (Config_SecretName (StorageConfig tenantControlPlane)) in
  match err with
  | Some err =>
      logger_Error err
        "cannot retrieve the DataStore Configuration secret" ;;;
      ret (r, Some err)
  | None =>
      ret ({| resource :=
                {| schema := data_string secret "DB_SCHEMA";
                   user := data_string secret "DB_USER";
                   password := data_string secret "DB_PASSWORD" |};
              client := client r;
              Connection := Connection r;
              DataStore := DataStore r |}, None)
  end.

Definition createDB (r : Setup) : M State (OperationResult * option error) :=
  '(exists_, err) <- conn_DBExists r (schema (resource r)) ;;
  match err with
  | Some err =>
      ret (OperationResultNone,
           Some (Wrap err "unable to check if datastore exists"))
  | None =>
      if exists_ then ret (OperationResultNone, None)
      else
        err <- conn_CreateDB r (schema (resource r)) ;;
        match err with
        | Some err =>
            ret (OperationResultNone,
                 Some (Wrap err "unable to create the datastore"))
        | None => ret (OperationResultCreated, None)
        end
  end.

Definition deleteDB (r : Setup) : M State (option error) :=
  '(exists_, err) <- conn_DBExists r (schema (resource r)) ;;
  match err with
  | Some err => ret (Some (Wrap err "unable to check if datastore exists"))
  | None =>
      if negb exists_ then ret None
      else
        err <- conn_DeleteDB r (schema (resource r)) ;;
        match err with
        | Some err => ret (Some (Wrap err "unable to delete the datastore"))
        | None => ret None
        end
  end.

Definition createUser (r : Setup)
    : M State (OperationResult * option error) :=
  '(exists_, err) <- conn_UserExists r (user (resource r)) ;;
  match err with
  | Some err =>
      ret (OperationResultNone,
           Some (Wrap err "unable to check if user exists"))
  | None =>
      if exists_ then ret (OperationResultNone, None)
      else
        err <- conn_CreateUser r (user (resource r))
                                 (password (resource r)) ;;
        match err with
        | Some err =>
            ret (OperationResultNone,
                 Some (Wrap err "unable to create the user"))
        | None => ret (OperationResultCreated, None)
        end
  end.

Definition deleteUser (r : Setup) : M State (option error) :=
  '(exists_, err) <- conn_UserExists r (user (resource r)) ;;
  match err with
  | Some err => ret (Some (Wrap err "unable to check if user exists"))
  | None =>
      if negb exists_ then ret None
      else
        err <- conn_DeleteUser r (user (resource r)) ;;
        match err with
        | Some err => ret (Some (Wrap err "unable to remove the user"))
        | None => ret None
        end
  end.

Definition createGrantPrivileges (r : Setup)
    : M State (OperationResult * option error) :=
  '(exists_, err) <-
    conn_GrantPrivilegesExists r (user (resource r))
                                 (schema (resource r)) ;;
  match err with
  | Some err =>
      ret (OperationResultNone,
           Some (Wrap err "unable to check if privileges exist"))
  | None =>
      if exists_ then ret (OperationResultNone, None)
      else
        err <- conn_GrantPrivileges r (user (resource r))
                                      (schema (resource r)) ;;
        match err with
        | Some err =>
            ret (OperationResultNone,
                 Some (Wrap err "unable to grant privileges"))
        | None => ret (OperationResultCreated, None)
        end
  end.

Definition revokeGrantPrivileges (r : Setup) : M State (option error) :=
  '(exists_, err) <-
    conn_GrantPrivilegesExists r (user (resource r))
                                 (schema (resource r)) ;;
  match err with
  | Some err => ret (Some (Wrap err "unable to check if privileges exist"))
  | None =>
      if negb exists_ then ret None
      else
        err <- conn_RevokePrivileges r (user (resource r))
                                       (schema (resource r)) ;;
        match err with
        | Some err => ret (Some (Wrap err "unable to revoke privileges"))
        | None => ret None
        end
  end.

Definition Delete (r : Setup) : M State (option error) :=
  err <- revokeGrantPrivileges r ;;
  match err with
  | Some err => logger_Error err "unable to revoke privileges" ;;;
                ret (Some err)
  | None =>
  err <- deleteDB r ;;
  match err with
  | Some err => logger_Error err "unable to delete datastore data" ;;;
                ret (Some err)
  | None =>
  err <- deleteUser r ;;
  match err with
  | Some err => logger_Error err "unable to delete user" ;;;
                ret (Some err)
  | None => ret None
  end end end.

(** The guard of the drift-repair branch of [CreateOrUpdate]. *)
Definition drifted (tenantControlPlane : TenantControlPlane) : bool :=
  string_neq (Setup_Checksum (StorageSetup tenantControlPlane)) ""
  && string_neq (Setup_Checksum (StorageSetup tenantControlPlane))
                (Config_Checksum (StorageConfig tenantControlPlane)).

Definition CreateOrUpdate (r : Setup)
    : M State (OperationResult * option error) :=
  tenantControlPlane <- gets tenant ;;
  if drifted tenantControlPlane then
    err <- Delete r ;;
    match err with
    | Some err => ret (OperationResultNone, Some err)
    | None => ret (OperationResultUpdated, None)
    end
  else
    let reconcilationResult := OperationResultNone in
    '(operationResult, err) <- createDB r ;;
    match err with
    | Some err =>
        logger_Error err "unable to create the DataStore data" ;;;
        ret (reconcilationResult, Some err)
    | None =>
    let reconcilationResult :=
      UpdateOperationResult reconcilationResult operationResult in
    '(operationResult, err) <- createUser r ;;
    match err with
    | Some err =>
        logger_Error err "unable to create the DataStore user" ;;;
        ret (reconcilationResult, Some err)
    | None =>
    let reconcilationResult :=
      UpdateOperationResult reconcilationResult operationResult in
    '(operationResult, err) <- createGrantPrivileges r ;;
    match err with
    | Some err =>
        logger_Error err
          "unable to create the DataStore user privileges" ;;;
        ret (reconcilationResult, Some err)
    | None =>
    let reconcilationResult :=
      UpdateOperationResult reconcilationResult operationResult in
    ret (reconcilationResult, None)
    end end end.

(** [metav1.Now()] is the argument [now]. *)
Definition UpdateTenantControlPlaneStatus (r : Setup) (now : Time)
    : M State (option error) :=
  tenantControlPlane <- gets tenant ;;
  modify (set_tenant
    (set_StorageSetup
       {| Setup_Schema := schema (resource r);
          Setup_User := user (resource r);
          Setup_LastUpdate := now;
          Setup_Checksum :=
            Config_Checksum (StorageConfig tenantControlPlane) |}
       tenantControlPlane)) ;;;
  ret None.

End Resource.

Arguments Setup : clear implicits.
Arguments State : clear implicits.

(** *** Reading a run

    What a call of the resource did is read off the history it leaves. *)

Section Observations.
Context {W : Type}.

(** The events a run from [st] to [st'] added to the history. *)
Definition performed (st st' : State W) : list datastore.Event :=
  drop (length (history st)) (history st').

Definition calls (evs : list datastore.Event) : list datastore.Call :=
  datastore.ev_call <$> evs.

(** The calls [r] makes for each of its three artifacts. *)
Definition check_schema (r : Setup W) : datastore.Call :=
  datastore.CallDBExists (schema (resource r)).
Definition create_schema (r : Setup W) : datastore.Call :=
  datastore.CallCreateDB (schema (resource r)).
Definition delete_schema (r : Setup W) : datastore.Call :=
  datastore.CallDeleteDB (schema (resource r)).
Definition check_user (r : Setup W) : datastore.Call :=
  datastore.CallUserExists (user (resource r)).
Definition create_user (r : Setup W) : datastore.Call :=
  datastore.CallCreateUser (user (resource r)) (password (resource r)).
Definition delete_user (r : Setup W) : datastore.Call :=
  datastore.CallDeleteUser (user (resource r)).
Definition check_grant (r : Setup W) : datastore.Call :=
  datastore.CallGrantPrivilegesExists (user (resource r)) (schema (resource r)).
Definition create_grant (r : Setup W) : datastore.Call :=
  datastore.CallGrantPrivileges (user (resource r)) (schema (resource r)).
Definition revoke_grant (r : Setup W) : datastore.Call :=
  datastore.CallRevokePrivileges (user (resource r)) (schema (resource r)).

(** The order of [CreateOrUpdate] outside drift repair, and of [Delete]. *)
Definition provisioning_order (r : Setup W) : list datastore.Call :=
  [check_schema r; create_schema r;
   check_user r; create_user r;
   check_grant r; create_grant r].

Definition teardown_order (r : Setup W) : list datastore.Call :=
  [check_grant r; revoke_grant r;
   check_schema r; delete_schema r;
   check_user r; delete_user r].

(** The message each helper wraps around the error of a failed call. *)
Definition failure_context (c : datastore.Call) : string :=
  match c with
  | datastore.CallDBExists _ => "unable to check if datastore exists"
  | datastore.CallCreateDB _ => "unable to create the datastore"
  | datastore.CallDeleteDB _ => "unable to delete the datastore"
  | datastore.CallUserExists _ => "unable to check if user exists"
  | datastore.CallCreateUser _ _ => "unable to create the user"
  | datastore.CallDeleteUser _ => "unable to remove the user"
  | datastore.CallGrantPrivilegesExists _ _ =>
      "unable to check if privileges exist"
  | datastore.CallGrantPrivileges _ _ => "unable to grant privileges"
  | datastore.CallRevokePrivileges _ _ => "unable to revoke privileges"
  end.

(** An artifact was created: a provisioning call that went through. *)
Definition created (e : datastore.Event) : bool :=
  datastore.provisioning (datastore.ev_call e)
  && bool_decide (datastore.ev_err e = None).

(** What one event contributes to the result of [CreateOrUpdate]. *)
Definition contribution (e : datastore.Event) : OperationResult :=
  if created e then OperationResultCreated else OperationResultNone.

(** The strongest contribution of a list of events. *)
Definition strongest (evs : list datastore.Event) : OperationResult :=
  foldr (fun e acc => UpdateOperationResult acc (contribution e))
        OperationResultNone evs.

(** The runs of one provisioning helper ([createDB], [createUser],
    [createGrantPrivileges]) with existence check [chk] and creating call
    [mk]: the events it adds and what it returns. *)
Inductive ensure_run (chk mk : datastore.Call)
  : list datastore.Event -> OperationResult * option error -> Prop :=
| ensure_check_failed found err :
    ensure_run chk mk
      [{| datastore.ev_call := chk; datastore.ev_found := found;
          datastore.ev_err := Some err |}]
      (OperationResultNone, Some (Wrap err (failure_context chk)))
| ensure_present :
    ensure_run chk mk [datastore.answered chk true] (OperationResultNone, None)
| ensure_create_failed err :
    ensure_run chk mk
      [datastore.answered chk false;
       {| datastore.ev_call := mk; datastore.ev_found := false;
          datastore.ev_err := Some err |}]
      (OperationResultNone, Some (Wrap err (failure_context mk)))
| ensure_created :
    ensure_run chk mk [datastore.answered chk false; datastore.done_ok mk]
      (OperationResultCreated, None).

(** The runs of one teardown helper ([revokeGrantPrivileges], [deleteDB],
    [deleteUser]) with existence check [chk] and removing call [rm]. *)
Inductive remove_run (chk rm : datastore.Call)
  : list datastore.Event -> option error -> Prop :=
| remove_check_failed found err :
    remove_run chk rm
      [{| datastore.ev_call := chk; datastore.ev_found := found;
          datastore.ev_err := Some err |}]
      (Some (Wrap err (failure_context chk)))
| remove_absent :
    remove_run chk rm [datastore.answered chk false] None
| remove_failed err :
    remove_run chk rm
      [datastore.answered chk true;
       {| datastore.ev_call := rm; datastore.ev_found := false;
          datastore.ev_err := Some err |}]
      (Some (Wrap err (failure_context rm)))
| remove_done :
    remove_run chk rm [datastore.answered chk true; datastore.done_ok rm] None.

(** Teardown helpers run one after the other, stopping at the first one that
    fails: [steps] lists the check and the removing call of each. *)
Inductive teardown_run
  : list (datastore.Call * datastore.Call) ->
    list datastore.Event -> option error -> Prop :=
| teardown_nil : teardown_run [] [] None
| teardown_failed chk rm steps evs err :
    remove_run chk rm evs (Some err) ->
    teardown_run ((chk, rm) :: steps) evs (Some err)
| teardown_next chk rm steps evs evs' res :
    remove_run chk rm evs None ->
    teardown_run steps evs' res ->
    teardown_run ((chk, rm) :: steps) (evs ++ evs') res.

(** Provisioning helpers run one after the other from the result [acc]
    gathered so far, stopping at the first one that fails. *)
Inductive provision_run
  : list (datastore.Call * datastore.Call) -> OperationResult ->
    list datastore.Event -> OperationResult * option error -> Prop :=
| provision_nil acc : provision_run [] acc [] (acc, None)
| provision_failed chk mk steps acc evs res err :
    ensure_run chk mk evs (res, Some err) ->
    provision_run ((chk, mk) :: steps) acc evs (acc, Some err)
| provision_next chk mk steps acc evs evs' res out :
    ensure_run chk mk evs (res, None) ->
    provision_run steps (UpdateOperationResult acc res) evs' out ->
    provision_run ((chk, mk) :: steps) acc (evs ++ evs') out.

(** The steps of [Delete], and of [CreateOrUpdate] outside drift repair. *)
Definition teardown_steps (r : Setup W)
    : list (datastore.Call * datastore.Call) :=
  [(check_grant r, revoke_grant r);
   (check_schema r, delete_schema r);
   (check_user r, delete_user r)].

Definition provisioning_steps (r : Setup W)
    : list (datastore.Call * datastore.Call) :=
  [(check_schema r, create_schema r);
   (check_user r, create_user r);
   (check_grant r, create_grant r)].

(** What the connection answers to one call from the state [w] of the
    backend: the event the resource records, and the state it leaves. *)
Definition answer (conn : datastore.Connection W) (c : datastore.Call)
    (w : W) : datastore.Event * W :=
  let asked (reply : (bool * option error) * W) :=
    ({| datastore.ev_call := c; datastore.ev_found := reply.1.1;
        datastore.ev_err := reply.1.2 |}, reply.2) in
  let told (reply : option error * W) :=
    ({| datastore.ev_call := c; datastore.ev_found := false;
        datastore.ev_err := reply.1 |}, reply.2) in
  match c with
  | datastore.CallDBExists n => asked (datastore.DBExists conn n w)
  | datastore.CallCreateDB n => told (datastore.CreateDB conn n w)
  | datastore.CallDeleteDB n => told (datastore.DeleteDB conn n w)
  | datastore.CallUserExists u => asked (datastore.UserExists conn u w)
  | datastore.CallCreateUser u p => told (datastore.CreateUser conn u p w)
  | datastore.CallDeleteUser u => told (datastore.DeleteUser conn u w)
  | datastore.CallGrantPrivilegesExists u n =>
      asked (datastore.GrantPrivilegesExists conn u n w)
  | datastore.CallGrantPrivileges u n =>
      told (datastore.GrantPrivileges conn u n w)
  | datastore.CallRevokePrivileges u n =>
      told (datastore.RevokePrivileges conn u n w)
  end.

(** The calls [cs] made one after the other from [w]: the events they
    give and the state of the backend after the last. *)
Fixpoint replay (conn : datastore.Connection W) (cs : list datastore.Call)
    (w : W) : list datastore.Event * W :=
  match cs with
  | [] => ([], w)
  | c :: cs =>
      let '(e, w1) := answer conn c w in
      let '(es, w2) := replay conn cs w1 in
      (e :: es, w2)
  end.

(** The history of a run is what the connection really answered: made again
    from the state the run started in, the calls it records give the events
    it records and end in the state it ended in. *)
Definition faithful (conn : datastore.Connection W) (st st' : State W) : Prop :=
  replay conn (calls (performed st st')) (world st)
  = (performed st st', world st').

(** A run that touches the connection only: the tenant object is the one it
    was handed, and [evs] is what it added to the history. *)
Definition extends (st st' : State W) (evs : list datastore.Event) : Prop :=
  tenant st' = tenant st /\ history st' = history st ++ evs.

End Observations.

End DatastoreSetup.

(** ** The kubeadm add-on resource ([KubeadmAddonResource]) *)

Module KubeadmAddons.
Import v1alpha1.
Local Open Scope go_scope.
Local Open Scope Z_scope.

(** [type KubeadmAddon int]: any integer can be stored in the field. *)
Definition KubeadmAddon : Type := Z.

Definition AddonCoreDNS : KubeadmAddon := 0.
Definition AddonKubeProxy : KubeadmAddon := 1.

(** What a Go call ends in: it returns, or it panics. *)
Inductive outcome (A : Type) : Type :=
| Returned (a : A)
| Panicked (reason : string).
Arguments Returned {A}.
Arguments Panicked {A}.

(** [KubeadmAddon.String]: the index into a two-element array; an index
    outside of it is a run-time panic. *)
Definition KubeadmAddon_String (d : KubeadmAddon) : option string :=
  if bool_decide (0 ≤ d) then
    ["PhaseAddonCoreDNS"; "PhaseAddonKubeProxy"] !! Z.to_nat d
  else None.

Definition index_out_of_range : string :=
  "runtime error: index out of range".
Definition nil_dereference : string :=
  "runtime error: invalid memory address or nil pointer dereference".

(** The function values the two selectors return, by name. *)
Inductive KubeadmFunction : Type := AddCoreDNS | AddKubeProxy.
Inductive RemoveAddonFunction : Type := RemoveCoreDNSAddon | RemoveKubeProxy.

(** [&tenantControlPlane.Status.Addons.CoreDNS] and
    [&tenantControlPlane.Status.Addons.KubeProxy]: pointers into the
    tenant object. *)
Inductive AddonStatusRef : Type := RefCoreDNS | RefKubeProxy.

Definition load (p : AddonStatusRef) (tcp : TenantControlPlane)
    : AddonStatus :=
  match p with
  | RefCoreDNS => Status_CoreDNS (Status_Addons (Status tcp))
  | RefKubeProxy => Status_KubeProxy (Status_Addons (Status tcp))
  end.

Definition store (p : AddonStatusRef) (s : AddonStatus)
    (tcp : TenantControlPlane) : TenantControlPlane :=
  match p with
  | RefCoreDNS =>
      set_StatusAddons
        {| Status_CoreDNS := s;
           Status_KubeProxy := Status_KubeProxy (Status_Addons (Status tcp)) |}
        tcp
  | RefKubeProxy =>
      set_StatusAddons
        {| Status_CoreDNS := Status_CoreDNS (Status_Addons (Status tcp));
           Status_KubeProxy := s |}
        tcp
  end.

(** Modelled from the spec: [AddonStatus.SetChecksum] is declared in the
    API package.  Section 4.2: "sets AddonStatus.Checksum to the
    just-applied fingerprint". *)
Definition SetChecksum (p : AddonStatusRef) (checksum : string)
    (tcp : TenantControlPlane) : TenantControlPlane :=
  store p {| Addon_Checksum := checksum |} tcp.

Record KubeadmAddonResource : Type := {
  Name : string;
  r_KubeadmAddon : KubeadmAddon;
  kubeadmConfigChecksum : string }.

Definition SetKubeadmConfigChecksum (r : KubeadmAddonResource)
    (checksum : string) : KubeadmAddonResource :=
  {| Name := Name r; r_KubeadmAddon := r_KubeadmAddon r;
     kubeadmConfigChecksum := checksum |}.

Definition GetName (r : KubeadmAddonResource) : string := Name r.

Definition GetTmpDirectory (r : KubeadmAddonResource) : string := "".

Definition GetStatus (r : KubeadmAddonResource) (_ : TenantControlPlane)
    : option AddonStatusRef * option error :=
  match r_KubeadmAddon r with
  | 0 => (Some RefCoreDNS, None)
  | 1 => (Some RefKubeProxy, None)
  | _ => (None, Some (Errorf "%s has no addon status" (r_KubeadmAddon r)))
  end.

Definition getSpec (r : KubeadmAddonResource)
    (tenantControlPlane : TenantControlPlane) : bool * option error :=
  match r_KubeadmAddon r with
  | 0 =>
      (bool_decide (Spec_CoreDNS (Spec_Addons (Spec tenantControlPlane))
                    = None), None)
  | 1 =>
      (bool_decide (Spec_KubeProxy (Spec_Addons (Spec tenantControlPlane))
                    = None), None)
  | _ => (false, Some (Errorf "%s has no spec" (r_KubeadmAddon r)))
  end.

Definition GetKubeadmFunction (r : KubeadmAddonResource)
    : option KubeadmFunction * option error :=
  match r_KubeadmAddon r with
  | 0 => (Some AddCoreDNS, None)
  | 1 => (Some AddKubeProxy, None)
  | _ => (None, Some (Errorf "no available functionality for phase %s"
                             (r_KubeadmAddon r)))
  end.

Definition getRemoveAddonFunction (r : KubeadmAddonResource)
    : option RemoveAddonFunction * option error :=
  match r_KubeadmAddon r with
  | 0 => (Some RemoveCoreDNSAddon, None)
  | 1 => (Some RemoveKubeProxy, None)
  | _ => (None,
          Some (Errorf "no available functionality for removing addon %s"
                       (r_KubeadmAddon r)))
  end.

Definition isStatusEqual (r : KubeadmAddonResource)
    (tenantControlPlane : TenantControlPlane) : bool :=
  let '(i, err) := GetStatus r tenantControlPlane in
  match err with
  | Some _ => false
  | None =>
      match i with
      | None => false
      | Some addonStatus =>
          String.eqb (Addon_Checksum (load addonStatus tenantControlPlane))
                     (kubeadmConfigChecksum r)
      end
  end.

Definition ShouldStatusBeUpdated (r : KubeadmAddonResource)
    (tenantControlPlane : TenantControlPlane) : bool :=
  negb (isStatusEqual r tenantControlPlane).

Definition ShouldCleanup (r : KubeadmAddonResource)
    (tenantControlPlane : TenantControlPlane) : bool :=
  let '(ok, err) := getSpec r tenantControlPlane in
  match err with
  | Some _ => false
  | None => ok
  end.

Section Resource.
(** [K] is the state of the tenant's own cluster, [Clientset] a client
    scoped to it. *)
Context {K Clientset : Type}.

(** The collaborators of other packages: [utilities.GetTenantClientSet]
    and the removers of package [kubeadm]. *)
Record Collaborators : Type := {
  GetTenantClientSet :
    TenantControlPlane -> K -> (Clientset * option error) * K;
  kubeadm_RemoveCoreDNSAddon : Clientset -> K -> option error * K;
  kubeadm_RemoveKubeProxy : Clientset -> K -> option error * K }.

Record State : Type := {
  tenant : TenantControlPlane;
  cluster : K;
  logged : list (string * error) }.

Definition set_tenant (tcp : TenantControlPlane) (st : State) : State :=
  {| tenant := tcp; cluster := cluster st; logged := logged st |}.

Definition logger_Error (err : error) (msg : string) : M State unit :=
  modify (fun st =>
    {| tenant := tenant st; cluster := cluster st;
       logged := logged st ++ [(msg, err)] |}).

(** A call into the tenant's cluster. *)
Definition external {A} (op : K -> A * K) : M State A :=
  fun st =>
    let '(a, k) := op (cluster st) in
    (a, {| tenant := tenant st; cluster := k; logged := logged st |}).

(** Calling the function value a selector returned. *)
Definition call_remover (env : Collaborators) (f : RemoveAddonFunction)
    (c : Clientset) : M State (option error) :=
  match f with
  | RemoveCoreDNSAddon => external (kubeadm_RemoveCoreDNSAddon env c)
  | RemoveKubeProxy => external (kubeadm_RemoveKubeProxy env c)
  end.

Definition CleanUp (env : Collaborators) (r : KubeadmAddonResource)
    : M State (outcome (bool * option error)) :=
  match KubeadmAddon_String (r_KubeadmAddon r) with
  | None => ret (Panicked index_out_of_range)
  | Some _ =>
  tenantControlPlane <- gets tenant ;;
  '(client, err) <-
    external (GetTenantClientSet env tenantControlPlane) ;;
  match err with
  | Some err =>
      logger_Error err "cannot generate Tenant client" ;;;
      ret (Returned (false, Some err))
  | None =>
  let '(fun_, err) := getRemoveAddonFunction r in
  match err with
  | Some err =>
      logger_Error err "cannot get the remove addon function" ;;;
      ret (Returned (false, Some err))
  | None =>
  match fun_ with
  | None => ret (Panicked nil_dereference)
  | Some fun_ =>
  err <- call_remover env fun_ client ;;
  match err with
  | Some err =>
      if negb (IsNotFound err) then
        logger_Error err "error while performing clean-up" ;;;
        ret (Returned (false, Some err))
      else ret (Returned (false, None))
  | None => ret (Returned (true, None))
  end end end end end.

Definition Define (r : KubeadmAddonResource) : M State (option error) :=
  ret None.

Definition UpdateTenantControlPlaneStatus (r : KubeadmAddonResource)
    : M State (outcome (option error)) :=
  match KubeadmAddon_String (r_KubeadmAddon r) with
  | None => ret (Panicked index_out_of_range)
  | Some _ =>
  tenantControlPlane <- gets tenant ;;
  let '(status, err) := GetStatus r tenantControlPlane in
  match err with
  | Some err =>
      logger_Error err "cannot update Tenant Control Plane status" ;;;
      ret (Returned (Some err))
  | None =>
  match status with
  | None => ret (Panicked nil_dereference)
  | Some status =>
      modify (set_tenant
        (SetChecksum status (kubeadmConfigChecksum r)
                     tenantControlPlane)) ;;;
      ret (Returned None)
  end end end.

End Resource.

Arguments Collaborators : clear implicits.
Arguments State : clear implicits.

End KubeadmAddons.

(** ** Concrete collaborators, to run the resources on *)

(** Modelled from the spec: section 6, "Datastore Connection": schema, user
    and grant checks, creation and removal against one live backend.  The
    drivers are outside the two files; this backend keeps the schemas, the
    users and the grants in memory.  A call listed in [broken] fails, as an
    unreachable datastore does. *)
Module MemStore.

Record Store : Type := {
  schemas : gset string;
  users : gmap string string;
  grants : gset (string * string);
  broken : list datastore.Call }.

Definition unreachable : error := errorString "connection refused".

Definition fails (c : datastore.Call) (w : Store) : bool :=
  bool_decide (c ∈ broken w).

Definition set_schemas (s : gset string) (w : Store) : Store :=
  {| schemas := s; users := users w; grants := grants w;
     broken := broken w |}.
Definition set_users (u : gmap string string) (w : Store) : Store :=
  {| schemas := schemas w; users := u; grants := grants w;
     broken := broken w |}.
Definition set_grants (g : gset (string * string)) (w : Store) : Store :=
  {| schemas := schemas w; users := users w; grants := g;
     broken := broken w |}.

Definition check (c : datastore.Call) (present : Store -> bool) (w : Store)
    : (bool * option error) * Store :=
  if fails c w then ((false, Some unreachable), w)
  else ((present w, None), w).

Definition change (c : datastore.Call) (f : Store -> Store) (w : Store)
    : option error * Store :=
  if fails c w then (Some unreachable, w) else (None, f w).

Definition conn : datastore.Connection Store := {|
  datastore.DBExists name :=
    check (datastore.CallDBExists name)
          (fun w => bool_decide (name ∈ schemas w));
  datastore.CreateDB name :=
    change (datastore.CallCreateDB name)
           (fun w => set_schemas ({[name]} ∪ schemas w) w);
  datastore.DeleteDB name :=
    change (datastore.CallDeleteDB name)
           (fun w => set_schemas (schemas w ∖ {[name]}) w);
  datastore.UserExists u :=
    check (datastore.CallUserExists u)
          (fun w => bool_decide (is_Some (users w !! u)));
  datastore.CreateUser u p :=
    change (datastore.CallCreateUser u p)
           (fun w => set_users (<[u := p]> (users w)) w);
  datastore.DeleteUser u :=
    change (datastore.CallDeleteUser u)
           (fun w => set_users (delete u (users w)) w);
  datastore.GrantPrivilegesExists u s :=
    check (datastore.CallGrantPrivilegesExists u s)
          (fun w => bool_decide ((u, s) ∈ grants w));
  datastore.GrantPrivileges u s :=
    change (datastore.CallGrantPrivileges u s)
           (fun w => set_grants ({[(u, s)]} ∪ grants w) w);
  datastore.RevokePrivileges u s :=
    change (datastore.CallRevokePrivileges u s)
           (fun w => set_grants (grants w ∖ {[(u, s)]}) w) |}.

Definition empty : Store :=
  {| schemas := ∅; users := ∅; grants := ∅; broken := [] |}.

End MemStore.

(** Modelled from the spec: section 6, "Add-on installer/remover functions":
    the remover "must signal NotFound distinctly from other failures".  The
    tenant cluster is the list of add-ons installed in it and a flag for an
    API server that does not answer. *)
Module FakeCluster.
Import KubeadmAddons.

Record Cluster : Type := {
  installed : list string;
  down : bool }.

Definition notFound (what : string) : error := StatusError "NotFound" what.
Definition unavailable : error :=
  StatusError "ServiceUnavailable" "the server is currently unable to handle the request".

Definition remove (what : string) (_ : unit) (k : Cluster)
    : option error * Cluster :=
  if down k then (Some unavailable, k)
  else if bool_decide (what ∈ installed k) then
    (None, {| installed := filter (λ a, a ≠ what) (installed k);
              down := down k |})
  else (Some (notFound what), k).

Definition env : Collaborators Cluster unit := {|
  GetTenantClientSet _ k := ((tt, None), k);
  kubeadm_RemoveCoreDNSAddon := remove "coredns";
  kubeadm_RemoveKubeProxy := remove "kube-proxy" |}.

End FakeCluster.

(** Tenants, resources and states to run the Setup resource on. *)
Module Fixtures.
Import v1alpha1 DatastoreSetup.

(** A tenant whose status records [recorded] as the setup of fingerprint
    [setupChecksum], with the desired fingerprint [configChecksum]. *)
Definition tenant_with (recorded : SetupResource)
    (setupChecksum configChecksum : string) : TenantControlPlane :=
  {| Namespace := "tenants";
     Spec := {| Spec_Addons :=
                  {| Spec_CoreDNS := Some addonSpec;
                     Spec_KubeProxy := Some addonSpec |} |};
     Status :=
       {| Status_Storage :=
            {| Storage_Driver := "MySQL";
               Storage_Config :=
                 {| Config_SecretName := "tenant-a-datastore-config";
                    Config_Checksum := configChecksum |};
               Storage_Setup :=
                 {| Setup_Schema := schema recorded;
                    Setup_User := user recorded;
                    Setup_LastUpdate := 0%Z;
                    Setup_Checksum := setupChecksum |} |};
          Status_Addons :=
            {| Status_CoreDNS := {| Addon_Checksum := "" |};
               Status_KubeProxy := {| Addon_Checksum := "" |} |} |} |}.

Definition nothing_recorded : SetupResource :=
  {| schema := ""; user := ""; password := "" |}.

(** The secret a cycle reads, and the resource after [Define] read it. *)
Definition secret_of (res : SetupResource) : Secret :=
  {| Data := {[ "DB_SCHEMA" := schema res; "DB_USER" := user res;
               "DB_PASSWORD" := password res ]} |}.

Definition setup_for (res : SetupResource) : Setup MemStore.Store :=
  {| resource := res;
     client := fun _ _ => (secret_of res, None);
     Connection := MemStore.conn;
     DataStore := {| DataStore_Spec := {| Spec_Driver := "MySQL" |} |} |}.

(** The resource as a cycle starts: nothing read yet, the secret of [res] in
    the management cluster. *)
Definition undefined_setup (res : SetupResource) : Setup MemStore.Store :=
  {| resource := nothing_recorded;
     client := client (setup_for res);
     Connection := MemStore.conn;
     DataStore := DataStore (setup_for res) |}.

Definition state_of (tcp : TenantControlPlane) (w : MemStore.Store)
    : State MemStore.Store :=
  {| tenant := tcp; world := w; history := []; logged := [] |}.

(** The datastore holding the three artifacts of [res]. *)
Definition provisioned (res : SetupResource) : MemStore.Store :=
  {| MemStore.schemas := {[ schema res ]};
     MemStore.users := {[ user res := password res ]};
     MemStore.grants := {[ (user res, schema res) ]};
     MemStore.broken := [] |}.

Definition tenantA : SetupResource :=
  {| schema := "tenantA"; user := "u1"; password := "secret1" |}.

(** The same tenant after its credentials were rotated to new names. *)
Definition tenantA_renamed : SetupResource :=
  {| schema := "tenantA_v2"; user := "u2"; password := "secret2" |}.

(** A datastore on which creating users fails. *)
Definition no_user_creation : MemStore.Store :=
  {| MemStore.schemas := ∅; MemStore.users := ∅; MemStore.grants := ∅;
     MemStore.broken := [datastore.CallCreateUser "u1" "secret1"] |}.

(** A datastore holding the artifacts of [tenantA] on which dropping its
    schema fails. *)
Definition no_schema_removal : MemStore.Store :=
  {| MemStore.schemas := {[ "tenantA" ]};
     MemStore.users := {[ "u1" := "secret1" ]};
     MemStore.grants := {[ ("u1", "tenantA") ]};
     MemStore.broken := [datastore.CallDeleteDB "tenantA"] |}.

(** A tenant for the add-on resource: the add-ons its spec declares and the
    fingerprints its status records. *)
Definition tenant_addons (coreDNS kubeProxy : option AddonSpec)
    (coreDNSChecksum kubeProxyChecksum : string) : TenantControlPlane :=
  {| Namespace := "tenants";
     Spec := {| Spec_Addons :=
                  {| Spec_CoreDNS := coreDNS;
                     Spec_KubeProxy := kubeProxy |} |};
     Status :=
       {| Status_Storage :=
            Status_Storage (Status (tenant_with nothing_recorded "" ""));
          Status_Addons :=
            {| Status_CoreDNS := {| Addon_Checksum := coreDNSChecksum |};
               Status_KubeProxy :=
                 {| Addon_Checksum := kubeProxyChecksum |} |} |} |}.

Definition addon (d : KubeadmAddons.KubeadmAddon)
    : KubeadmAddons.KubeadmAddonResource :=
  {| KubeadmAddons.Name := "addon";
     KubeadmAddons.r_KubeadmAddon := d;
     KubeadmAddons.kubeadmConfigChecksum := "kubeadmHash1" |}.

Definition cluster_state (tcp : TenantControlPlane)
    (k : FakeCluster.Cluster) : KubeadmAddons.State FakeCluster.Cluster :=
  {| KubeadmAddons.tenant := tcp; KubeadmAddons.cluster := k;
     KubeadmAddons.logged := [] |}.

End Fixtures.

(** * Proof tactics *)

Module Tactics.
Import DatastoreSetup.

Ltac unfold_monad :=
  unfold conn_DBExists, conn_CreateDB, conn_DeleteDB, conn_UserExists,
    conn_CreateUser, conn_DeleteUser, conn_GrantPrivilegesExists,
    conn_GrantPrivileges, conn_RevokePrivileges, query, command,
    logger_Error, bind, ret, gets, modify.

(** The Setup resource down to the calls on the connection. *)
Ltac unfold_setup :=
  unfold CreateOrUpdate, Delete, revokeGrantPrivileges, deleteDB, deleteUser,
    createDB, createUser, createGrantPrivileges;
  unfold_monad.

(** Case analysis on what the next call of the connection answered. *)
Ltac case_query op :=
  destruct op as [[[] [?err|]] ?w] eqn:?.
Ltac case_command op :=
  destruct op as [[?err|] ?w] eqn:?.
Ltac case_conn :=
  match goal with
  | |- context [datastore.DBExists ?c ?n ?w] =>
      case_query (datastore.DBExists c n w)
  | |- context [datastore.UserExists ?c ?n ?w] =>
      case_query (datastore.UserExists c n w)
  | |- context [datastore.GrantPrivilegesExists ?c ?u ?n ?w] =>
      case_query (datastore.GrantPrivilegesExists c u n w)
  | |- context [datastore.CreateDB ?c ?n ?w] =>
      case_command (datastore.CreateDB c n w)
  | |- context [datastore.DeleteDB ?c ?n ?w] =>
      case_command (datastore.DeleteDB c n w)
  | |- context [datastore.CreateUser ?c ?n ?p ?w] =>
      case_command (datastore.CreateUser c n p w)
  | |- context [datastore.DeleteUser ?c ?n ?w] =>
      case_command (datastore.DeleteUser c n w)
  | |- context [datastore.GrantPrivileges ?c ?u ?n ?w] =>
      case_command (datastore.GrantPrivileges c u n w)
  | |- context [datastore.RevokePrivileges ?c ?u ?n ?w] =>
      case_command (datastore.RevokePrivileges c u n w)
  end.

(** A helper's run: follow the calls it makes, then name the events. *)
Ltac helper_run :=
  unfold_monad; repeat (simpl; case_conn); simpl;
  eexists;
  (split;
   [ | split; [reflexivity | simpl; rewrite <- ?app_assoc; reflexivity] ]);
  simpl; constructor.

(** From a run relation to the concrete lists of events it allows. *)
Ltac invert_runs :=
  unfold teardown_steps, provisioning_steps in *;
  repeat match goal with
  | H : teardown_run _ _ _ |- _ => inversion H; clear H; subst
  | H : provision_run _ _ _ _ |- _ => inversion H; clear H; subst
  | H : remove_run _ _ _ _ |- _ => inversion H; clear H; subst
  | H : ensure_run _ _ _ _ |- _ => inversion H; clear H; subst
  end.

(** Membership in, and order of, a concrete list of events or calls. *)
Ltac in_order :=
  repeat first [apply sublist_nil_l | apply sublist_skip | apply sublist_cons].
Ltac membership :=
  unfold calls, datastore.answered, datastore.done_ok, check_schema,
    create_schema, delete_schema, check_user, create_user, delete_user,
    check_grant, create_grant, revoke_grant in *;
  simpl in *;
  rewrite ?elem_of_cons, ?elem_of_nil in *;
  intuition (try discriminate; try congruence).

(** A hypothesis [H] about every event of a concrete list, event by event;
    and a membership [H] in a concrete list, case by case. *)
Ltac all_events H :=
  apply Forall_forall in H; simpl in H;
  repeat match goal with
  | H' : Forall _ (_ :: _) |- _ => inversion H'; clear H'; subst
  | H' : Forall _ [] |- _ => clear H'
  end.
Ltac events_of H :=
  simpl in H; rewrite ?elem_of_cons, ?elem_of_nil in H;
  repeat match type of H with
  | _ \/ _ => destruct H as [H | H]
  end;
  try contradiction; subst.

(** Evaluates the list of events a membership hypothesis [H] ranges over. *)
Ltac eval_events H :=
  match type of H with
  | ?e ∈ ?l => let l' := eval vm_compute in l in change (e ∈ l') in H
  end.

(** The history of a run against what the connection answers: the calls are
    made again and the answers of the case analysis used. *)
Ltac replayed :=
  unfold faithful, performed; simpl;
  rewrite <- ?app_assoc, ?drop_app_length;
  unfold answer; simpl;
  repeat match goal with
  | H : _ = (_, _) |- _ => rewrite H; clear H; simpl
  end;
  reflexivity.

(** Case analysis on the discriminant as the selectors read it. *)
Ltac case_addon r :=
  destruct (KubeadmAddons.r_KubeadmAddon r) as [|[?p|?p|]|?p] eqn:?.

End Tactics.

(** * The in-memory datastore: what it holds, and tactics for its runs *)

Module StoreRelations.
Import DatastoreSetup.

(** Every call on the in-memory datastore [w] goes through. *)
Definition reachable (w : MemStore.Store) : Prop := MemStore.broken w = [].

(** The datastore [w] holds the three artifacts [res] names. *)
Definition holds (res : SetupResource) (w : MemStore.Store) : Prop :=
  schema res ∈ MemStore.schemas w
  /\ is_Some (MemStore.users w !! user res)
  /\ (user res, schema res) ∈ MemStore.grants w.

(** [w'] differs from [w] at most in the three artifacts [res] names. *)
Definition same_elsewhere (res : SetupResource) (w w' : MemStore.Store)
    : Prop :=
  (forall s, s <> schema res ->
     (s ∈ MemStore.schemas w' <-> s ∈ MemStore.schemas w))
  /\ (forall u, u <> user res -> MemStore.users w' !! u = MemStore.users w !! u)
  /\ (forall g, g <> (user res, schema res) ->
        (g ∈ MemStore.grants w' <-> g ∈ MemStore.grants w))
  /\ MemStore.broken w' = MemStore.broken w.

(** The datastore [w] holds none of the three artifacts [res] names. *)
Definition lacks (res : SetupResource) (w : MemStore.Store) : Prop :=
  (schema res ∉ MemStore.schemas w)
  /\ (MemStore.users w !! user res = None)
  /\ ((user res, schema res) ∉ MemStore.grants w).

(** [tenantA] with its password rotated, names unchanged. *)
Definition tenantA_rotated : SetupResource :=
  {| schema := "tenantA"; user := "u1"; password := "secret2" |}.

End StoreRelations.

Module StoreTactics.
Import DatastoreSetup Tactics StoreRelations.

(** [same_elsewhere] between a store and its update at the names of [res]. *)
Ltac elsewhere :=
  unfold same_elsewhere; simpl;
  split; [ | split; [ | split; [ | reflexivity]]];
  [ intros s Hs;
    rewrite ?elem_of_union, ?elem_of_difference, ?elem_of_singleton; tauto
  | intros u Hu; by rewrite ?lookup_insert_ne, ?lookup_delete_ne by done
  | intros g Hg;
    rewrite ?elem_of_union, ?elem_of_difference, ?elem_of_singleton; tauto ].

End StoreTactics.

(** * Properties of the datastore Setup resource *)

Module SetupFacts.
Import v1alpha1 controllerutil utils DatastoreSetup Tactics.

Section Helpers.
Context {W : Type}.
Implicit Types (r : Setup W) (st : State W).

Lemma extends_trans st st1 st2 evs1 evs2 :
  extends st st1 evs1 -> extends st1 st2 evs2 -> extends st st2 (evs1 ++ evs2).
Proof.
  intros [Ht1 Hh1] [Ht2 Hh2]. split.
  - congruence.
  - rewrite Hh2, Hh1. symmetry. apply app_assoc.
Qed.

Lemma extends_performed st st' evs : extends st st' evs -> performed st st' = evs.
Proof.
  intros [_ Hh]. unfold performed. rewrite Hh. apply drop_app_length.
Qed.

Lemma createDB_run r st :
  exists evs, ensure_run (check_schema r) (create_schema r) evs (createDB r st).1
              /\ extends st (createDB r st).2 evs.
Proof. unfold createDB. helper_run. Qed.

Lemma createUser_run r st :
  exists evs, ensure_run (check_user r) (create_user r) evs (createUser r st).1
              /\ extends st (createUser r st).2 evs.
Proof. unfold createUser. helper_run. Qed.

Lemma createGrantPrivileges_run r st :
  exists evs, ensure_run (check_grant r) (create_grant r) evs
                (createGrantPrivileges r st).1
              /\ extends st (createGrantPrivileges r st).2 evs.
Proof. unfold createGrantPrivileges. helper_run. Qed.

Lemma revokeGrantPrivileges_run r st :
  exists evs, remove_run (check_grant r) (revoke_grant r) evs
                (revokeGrantPrivileges r st).1
              /\ extends st (revokeGrantPrivileges r st).2 evs.
Proof. unfold revokeGrantPrivileges. helper_run. Qed.

Lemma deleteDB_run r st :
  exists evs, remove_run (check_schema r) (delete_schema r) evs (deleteDB r st).1
              /\ extends st (deleteDB r st).2 evs.
Proof. unfold deleteDB. helper_run. Qed.

Lemma deleteUser_run r st :
  exists evs, remove_run (check_user r) (delete_user r) evs (deleteUser r st).1
              /\ extends st (deleteUser r st).2 evs.
Proof. unfold deleteUser. helper_run. Qed.

Lemma extends_logged st st' evs err msg :
  extends st st' evs -> extends st (logger_Error err msg st').2 evs.
Proof. intros [Ht Hh]. split; simpl; assumption. Qed.

Lemma Delete_run r st :
  exists evs, teardown_run (teardown_steps r) evs (Delete r st).1
              /\ extends st (Delete r st).2 evs.
Proof.
  unfold Delete, bind, teardown_steps.
  destruct (revokeGrantPrivileges_run r st) as (evs1 & R1 & E1).
  destruct (revokeGrantPrivileges r st) as [[err1|] st1]; simpl in *.
  { exists evs1. split; [by apply teardown_failed | by apply extends_logged]. }
  destruct (deleteDB_run r st1) as (evs2 & R2 & E2).
  destruct (deleteDB r st1) as [[err2|] st2]; simpl in *.
  { exists (evs1 ++ evs2). split.
    - by apply teardown_next; [ | apply teardown_failed].
    - apply extends_logged. by eapply extends_trans. }
  destruct (deleteUser_run r st2) as (evs3 & R3 & E3).
  destruct (deleteUser r st2) as [[err3|] st3]; simpl in *.
  { exists (evs1 ++ evs2 ++ evs3). split.
    - by repeat (apply teardown_next; [done | ]); apply teardown_failed.
    - apply extends_logged. eapply extends_trans; [done | ].
      by eapply extends_trans. }
  exists (evs1 ++ evs2 ++ evs3 ++ []). split.
  - repeat (apply teardown_next; [done | ]). apply teardown_nil.
  - rewrite app_nil_r. eapply extends_trans; [done | ].
    by eapply extends_trans.
Qed.

Lemma provisioning_run r st :
  drifted (tenant st) = false ->
  exists evs,
    provision_run (provisioning_steps r) OperationResultNone evs
                  (CreateOrUpdate r st).1
    /\ extends st (CreateOrUpdate r st).2 evs.
Proof.
  intros Hnd. unfold CreateOrUpdate, bind, gets, provisioning_steps.
  rewrite Hnd.
  destruct (createDB_run r st) as (evs1 & R1 & E1).
  destruct (createDB r st) as [[res1 [err1|]] st1]; simpl in *.
  { exists evs1. split; [by eapply provision_failed | by apply extends_logged]. }
  destruct (createUser_run r st1) as (evs2 & R2 & E2).
  destruct (createUser r st1) as [[res2 [err2|]] st2]; simpl in *.
  { exists (evs1 ++ evs2). split.
    - by eapply provision_next; [ | eapply provision_failed].
    - apply extends_logged. by eapply extends_trans. }
  destruct (createGrantPrivileges_run r st2) as (evs3 & R3 & E3).
  destruct (createGrantPrivileges r st2) as [[res3 [err3|]] st3]; simpl in *.
  { exists (evs1 ++ evs2 ++ evs3). split.
    - by repeat (eapply provision_next; [done | ]); eapply provision_failed.
    - apply extends_logged. eapply extends_trans; [done | ].
      by eapply extends_trans. }
  exists (evs1 ++ evs2 ++ evs3 ++ []). split.
  - repeat (eapply provision_next; [done | ]). apply provision_nil.
  - rewrite app_nil_r. eapply extends_trans; [done | ].
    by eapply extends_trans.
Qed.

Lemma drift_repair_run r st :
  drifted (tenant st) = true ->
  exists evs err,
    teardown_run (teardown_steps r) evs err
    /\ (CreateOrUpdate r st).1 =
         (match err with
          | Some _ => OperationResultNone
          | None => OperationResultUpdated
          end, err)
    /\ extends st (CreateOrUpdate r st).2 evs.
Proof.
  intros Hd. unfold CreateOrUpdate, bind, gets. rewrite Hd.
  destruct (Delete_run r st) as (evs & R & E).
  destruct (Delete r st) as [[err|] st1]; simpl in *.
  - by exists evs, (Some err).
  - by exists evs, None.
Qed.

(** The histories [Delete] and [CreateOrUpdate] leave are what the connection
    answered, and the backend is as their calls left it. *)
Lemma Delete_faithful r st : faithful (Connection r) st (Delete r st).2.
Proof.
  unfold_setup. repeat (simpl; case_conn); simpl. all: replayed.
Qed.

Lemma CreateOrUpdate_faithful r st :
  faithful (Connection r) st (CreateOrUpdate r st).2.
Proof.
  unfold_setup. destruct (drifted (tenant st)).
  - repeat (simpl; case_conn); simpl. all: replayed.
  - repeat (simpl; case_conn); simpl. all: replayed.
Qed.

End Helpers.

Section Teardown.
Context {W : Type}.
Implicit Types (r : Setup W) (st : State W).

(** C4.  [Delete] asks for the privilege grant, then the schema, then the
    user, starting with the grant; the history it leaves is what the
    connection answered and the backend is as those calls left it.  Each
    removing call is made exactly when the existence check of its artifact
    answered that it is present.  After a check that answers "absent", and
    after a removal that went through, the teardown goes on to the next
    artifact, and after the last one it returns nil; it returns nil exactly
    when no call failed, and a call that fails is the last one made, its
    error returned wrapped.  So when every check answers "absent", [Delete]
    returns nil after the three checks, without one mutating call, whatever
    state an earlier teardown left. *)
Theorem Delete_teardown r st :
  let out := Delete r st in
  let evs := performed st out.2 in
  history out.2 = history st ++ evs
  /\ faithful (Connection r) st out.2
  /\ sublist (calls evs) (teardown_order r)
  /\ head (calls evs) = Some (check_grant r)
  /\ (revoke_grant r ∈ calls evs
       <-> datastore.answered (check_grant r) true ∈ evs)
  /\ (delete_schema r ∈ calls evs
       <-> datastore.answered (check_schema r) true ∈ evs)
  /\ (delete_user r ∈ calls evs
       <-> datastore.answered (check_user r) true ∈ evs)
  /\ (datastore.answered (check_grant r) false ∈ evs ->
       check_schema r ∈ calls evs)
  /\ (datastore.answered (check_schema r) false ∈ evs ->
       check_user r ∈ calls evs)
  /\ (datastore.answered (check_user r) false ∈ evs -> out.1 = None)
  /\ (datastore.done_ok (revoke_grant r) ∈ evs -> check_schema r ∈ calls evs)
  /\ (datastore.done_ok (delete_schema r) ∈ evs -> check_user r ∈ calls evs)
  /\ (datastore.done_ok (delete_user r) ∈ evs -> out.1 = None)
  /\ (out.1 = None <-> forall e, e ∈ evs -> datastore.ev_err e = None)
  /\ (forall e cause, e ∈ evs -> datastore.ev_err e = Some cause ->
        last evs = Some e
        /\ out.1 = Some (Wrap cause (failure_context (datastore.ev_call e))))
  /\ ((forall e, e ∈ evs -> datastore.mutating (datastore.ev_call e) = false ->
          datastore.ev_found e = false /\ datastore.ev_err e = None) ->
       out.1 = None
       /\ evs = [datastore.answered (check_grant r) false;
                 datastore.answered (check_schema r) false;
                 datastore.answered (check_user r) false]
       /\ forall e, e ∈ evs -> datastore.mutating (datastore.ev_call e) = false).
Proof.
  cbv zeta. destruct (Delete_run r st) as (evs & R & E).
  rewrite (extends_performed _ _ _ E).
  destruct E as [_ ->]. split; [reflexivity | ].
  split; [apply Delete_faithful | ].
  destruct (Delete r st) as [res st']; simpl in *. clear st'.
  invert_runs; simpl.
  all: split; [unfold teardown_order, calls; simpl; in_order | ].
  all: split; [reflexivity | ].
  all: do 9 (split; [solve [membership] | ]).
  all: split;
    [ split;
      [ first [discriminate | intros _ e He; by events_of He]
      | intros Hall; first [reflexivity | all_events Hall; discriminate] ]
    | ].
  all: split;
    [ intros e cause He Hc; events_of He; simpl in Hc;
      first [discriminate | injection Hc as <-; by split] | ].
  all: intros Habsent; all_events Habsent.
  all: try (exfalso; membership; fail).
  repeat split. intros e He. by events_of He.
Qed.

End Teardown.

Section Provisioning.
Context {W : Type}.
Implicit Types (r : Setup W) (st : State W).

(** No contribution is stronger than the aggregate. *)
Lemma strongest_upper_bound (evs : list datastore.Event) e :
  e ∈ evs -> strength (contribution e) <= strength (strongest evs).
Proof.
  induction evs as [|e' evs IH]; intros He.
  - by apply elem_of_nil in He.
  - apply elem_of_cons in He as [-> | He]; simpl.
    + destruct (strongest evs), (contribution e'); simpl; lia.
    + specialize (IH He).
      destruct (strongest evs), (contribution e'), (contribution e);
        simpl in *; lia.
Qed.

(** The aggregate is a no-op, or the contribution of one of the events. *)
Lemma strongest_attained (evs : list datastore.Event) :
  strongest evs = OperationResultNone
  \/ exists e, e ∈ evs /\ contribution e = strongest evs.
Proof.
  induction evs as [|e' evs IH]; [by left | ].
  simpl. destruct (contribution e') eqn:He'.
  - destruct IH as [-> | (e & He & Hc)]; [by left | right].
    exists e. split; [by apply list_elem_of_further | ].
    rewrite Hc. by destruct (strongest evs).
  - right. exists e'. split; [by apply list_elem_of_here | ].
    rewrite He'. by destruct (strongest evs).
  - right. destruct (strongest evs) eqn:Hs.
    + exists e'. split; [by apply list_elem_of_here | done].
    + destruct IH as [? | (e & He & Hc)]; [done | ].
      exists e. split; [by apply list_elem_of_further | done].
    + exists e'. split; [by apply list_elem_of_here | done].
Qed.

(** C3.  Outside drift repair [CreateOrUpdate] asks for the schema, the user
    and the privilege grant in that order, each with its existence check
    first, starting with the schema; the history it leaves is what the
    connection answered and the backend is as those calls left it.  An
    artifact is created exactly when its check answered "absent"; one that is
    present is left alone; after either the next artifact is looked at, and
    after the last one the call returns without error.  The result is the
    strongest contribution of the calls made (created for an artifact that
    was created, a no-op otherwise).  No error is returned exactly when no
    call failed; a failed call is the last one made, the error returned wraps
    its error with the message of that call, and no removing call is ever
    made, so what was created before stays. *)
Theorem CreateOrUpdate_provisioning r st (Hnd : drifted (tenant st) = false) :
  let out := CreateOrUpdate r st in
  let evs := performed st out.2 in
  history out.2 = history st ++ evs
  /\ faithful (Connection r) st out.2
  /\ sublist (calls evs) (provisioning_order r)
  /\ head (calls evs) = Some (check_schema r)
  /\ (create_schema r ∈ calls evs
       <-> datastore.answered (check_schema r) false ∈ evs)
  /\ (create_user r ∈ calls evs
       <-> datastore.answered (check_user r) false ∈ evs)
  /\ (create_grant r ∈ calls evs
       <-> datastore.answered (check_grant r) false ∈ evs)
  /\ (datastore.answered (check_schema r) true ∈ evs ->
       check_user r ∈ calls evs)
  /\ (datastore.answered (check_user r) true ∈ evs ->
       check_grant r ∈ calls evs)
  /\ (datastore.answered (check_grant r) true ∈ evs -> out.1.2 = None)
  /\ (datastore.done_ok (create_schema r) ∈ evs -> check_user r ∈ calls evs)
  /\ (datastore.done_ok (create_user r) ∈ evs -> check_grant r ∈ calls evs)
  /\ (datastore.done_ok (create_grant r) ∈ evs -> out.1.2 = None)
  /\ out.1.1 = strongest evs
  /\ (out.1.2 = None <-> forall e, e ∈ evs -> datastore.ev_err e = None)
  /\ (out.1.2 = None ->
       check_schema r ∈ calls evs /\ check_user r ∈ calls evs
       /\ check_grant r ∈ calls evs)
  /\ (forall e cause, e ∈ evs -> datastore.ev_err e = Some cause ->
        last evs = Some e
        /\ out.1.2
           = Some (Wrap cause (failure_context (datastore.ev_call e))))
  /\ (forall err, out.1.2 = Some err ->
       exists e cause,
         last evs = Some e /\ datastore.ev_err e = Some cause
         /\ err = Wrap cause (failure_context (datastore.ev_call e)))
  /\ (forall e, e ∈ evs -> datastore.removing (datastore.ev_call e) = false).
Proof.
  cbv zeta. destruct (provisioning_run r st Hnd) as (evs & R & E).
  rewrite (extends_performed _ _ _ E).
  destruct E as [_ ->]. split; [reflexivity | ].
  split; [apply CreateOrUpdate_faithful | ].
  destruct (CreateOrUpdate r st) as [[res err] st']; simpl in *. clear st'.
  invert_runs; simpl.
  all: split; [unfold provisioning_order, calls; simpl; in_order | ].
  all: split; [reflexivity | ].
  all: do 9 (split; [solve [membership] | ]).
  all: split; [reflexivity | ].
  all: split;
    [ split;
      [ first [discriminate | intros _ e He; by events_of He]
      | intros Hall; first [reflexivity | all_events Hall; discriminate] ]
    | ].
  all: split;
    [ first [discriminate | intros _; by do 2 (split; [solve [membership] | ]);
                             solve [membership]] | ].
  all: split;
    [ intros e cause He Hc; events_of He; simpl in Hc;
      first [discriminate | injection Hc as <-; by split] | ].
  all: split; [ | intros e He; by events_of He].
  all: intros err' Herr; try discriminate.
  all: injection Herr as <-; by eexists _, _.
Qed.

End Provisioning.

Section Contract.
Context {W : Type}.
Implicit Types (r : Setup W) (st : State W) (tcp : TenantControlPlane).

Lemma string_neq_true a b : string_neq a b = true <-> a <> b.
Proof.
  unfold string_neq. rewrite negb_true_iff. apply String.eqb_neq.
Qed.

Lemma string_neq_false a b : string_neq a b = false <-> a = b.
Proof.
  unfold string_neq. rewrite negb_false_iff. apply String.eqb_eq.
Qed.

(** The guard of drift repair: a fingerprint is recorded and it is not the
    desired one. *)
Lemma drifted_true tcp :
  drifted tcp = true <->
  Setup_Checksum (StorageSetup tcp) <> ""
  /\ Setup_Checksum (StorageSetup tcp) <> Config_Checksum (StorageConfig tcp).
Proof.
  unfold drifted. by rewrite andb_true_iff, !string_neq_true.
Qed.

Lemma drifted_false tcp :
  drifted tcp = false <->
  Setup_Checksum (StorageSetup tcp) = ""
  \/ Setup_Checksum (StorageSetup tcp) = Config_Checksum (StorageConfig tcp).
Proof.
  unfold drifted. by rewrite andb_false_iff, !string_neq_false.
Qed.

(** Whatever it returns, [CreateOrUpdate] hands back the tenant object it
    was given. *)
Lemma CreateOrUpdate_tenant r st : tenant (CreateOrUpdate r st).2 = tenant st.
Proof.
  destruct (drifted (tenant st)) eqn:Hd.
  - destruct (drift_repair_run r st Hd) as (evs & err & _ & _ & [Ht _]).
    exact Ht.
  - destruct (provisioning_run r st Hd) as (evs & _ & [Ht _]). exact Ht.
Qed.

Lemma Delete_tenant r st : tenant (Delete r st).2 = tenant st.
Proof. destruct (Delete_run r st) as (evs & _ & [Ht _]). exact Ht. Qed.

Lemma Define_tenant r st : tenant (Define r st).2 = tenant st.
Proof.
  unfold Define, bind, gets.
  destruct (client r _ _) as [secret [err|]]; reflexivity.
Qed.

(** C2.  [ShouldStatusBeUpdated] is true exactly when the recorded driver is
    not the desired one and the recorded setup fingerprint is not the desired
    configuration fingerprint; when either pair is equal it is false. *)
Theorem ShouldStatusBeUpdated_iff r tcp :
  (ShouldStatusBeUpdated r tcp = true <->
   Storage_Driver (Status_Storage (Status tcp))
     <> Spec_Driver (DataStore_Spec (DataStore r))
   /\ Setup_Checksum (StorageSetup tcp) <> Config_Checksum (StorageConfig tcp))
  /\ (ShouldStatusBeUpdated r tcp = false <->
      Storage_Driver (Status_Storage (Status tcp))
        = Spec_Driver (DataStore_Spec (DataStore r))
      \/ Setup_Checksum (StorageSetup tcp)
         = Config_Checksum (StorageConfig tcp)).
Proof.
  unfold ShouldStatusBeUpdated. split.
  - by rewrite andb_true_iff, !string_neq_true.
  - by rewrite andb_false_iff, !string_neq_false.
Qed.

(** C6.  The Setup resource never asks for a clean-up, and its [CleanUp]
    returns [(false, nil)] from the state it was called in: no call on the
    connection, nothing logged, the tenant object as it was. *)
Theorem Setup_never_cleans_up r tcp st :
  ShouldCleanup r tcp = false
  /\ CleanUp r st = ((false, None), st).
Proof. split; reflexivity. Qed.

(** C1, as the code has it.  When a fingerprint is recorded and differs from
    the desired one, a successful [CreateOrUpdate] returns [Updated] after
    the teardown of the artifacts named by the credentials of this cycle
    ([r.resource]): grant, schema and user are each looked for, in that
    order, and each one is removed exactly when it was found, the removal
    going through before the call returns.  The history is what the
    connection answered and the backend is as those calls left it.  No
    artifact is provisioned in that call.  The status update that follows
    records the desired fingerprint. *)
Theorem CreateOrUpdate_drift_repair r st now
    (Hd : drifted (tenant st) = true)
    (Hok : (CreateOrUpdate r st).1.2 = None) :
  let out := CreateOrUpdate r st in
  let evs := performed st out.2 in
  out.1.1 = OperationResultUpdated
  /\ history out.2 = history st ++ evs
  /\ faithful (Connection r) st out.2
  /\ sublist (calls evs) (teardown_order r)
  /\ head (calls evs) = Some (check_grant r)
  /\ (check_grant r ∈ calls evs /\ check_schema r ∈ calls evs
      /\ check_user r ∈ calls evs)
  /\ (datastore.answered (check_grant r) true ∈ evs ->
       datastore.done_ok (revoke_grant r) ∈ evs)
  /\ (datastore.answered (check_schema r) true ∈ evs ->
       datastore.done_ok (delete_schema r) ∈ evs)
  /\ (datastore.answered (check_user r) true ∈ evs ->
       datastore.done_ok (delete_user r) ∈ evs)
  /\ (revoke_grant r ∈ calls evs
       <-> datastore.answered (check_grant r) true ∈ evs)
  /\ (delete_schema r ∈ calls evs
       <-> datastore.answered (check_schema r) true ∈ evs)
  /\ (delete_user r ∈ calls evs
       <-> datastore.answered (check_user r) true ∈ evs)
  /\ (forall e, e ∈ evs ->
        datastore.ev_err e = None
        /\ datastore.provisioning (datastore.ev_call e) = false)
  /\ Setup_Checksum
       (StorageSetup (tenant (UpdateTenantControlPlaneStatus r now out.2).2))
     = Config_Checksum (StorageConfig (tenant st)).
Proof.
  cbv zeta. destruct (drift_repair_run r st Hd) as (evs & err & R & Hout & E).
  rewrite (extends_performed _ _ _ E).
  pose proof (CreateOrUpdate_faithful r st) as Hf.
  destruct E as [Ht Hh].
  unfold UpdateTenantControlPlaneStatus, bind, gets, modify, ret; simpl.
  rewrite Ht, Hh.
  destruct (CreateOrUpdate r st) as [[res err'] st']; simpl in *.
  injection Hout as -> ->. subst err.
  split; [reflexivity | ]. split; [reflexivity | ]. split; [exact Hf | ].
  clear st' Ht Hh Hf.
  invert_runs; simpl.
  all: split; [unfold teardown_order, calls; simpl; in_order | ].
  all: split; [reflexivity | ].
  all: do 7 (split; [solve [membership] | ]).
  all: split; [ | reflexivity].
  all: intros e He; by events_of He.
Qed.

(** C5, as the code has it.  Outside drift repair (nothing recorded, or the
    recorded fingerprint is the desired one), when every existence check of
    the call finds its artifact, [CreateOrUpdate] makes the three checks and
    nothing else, returns the no-op result and no error, and leaves the
    tenant object alone. *)
Theorem CreateOrUpdate_idempotent r st
    (Hnd : drifted (tenant st) = false)
    (Hpresent : forall e, e ∈ performed st (CreateOrUpdate r st).2 ->
       datastore.mutating (datastore.ev_call e) = false ->
       datastore.ev_found e = true /\ datastore.ev_err e = None) :
  (CreateOrUpdate r st).1 = (OperationResultNone, None)
  /\ performed st (CreateOrUpdate r st).2
     = [datastore.answered (check_schema r) true;
        datastore.answered (check_user r) true;
        datastore.answered (check_grant r) true]
  /\ (forall e, e ∈ performed st (CreateOrUpdate r st).2 ->
       datastore.mutating (datastore.ev_call e) = false)
  /\ tenant (CreateOrUpdate r st).2 = tenant st.
Proof.
  destruct (provisioning_run r st Hnd) as (evs & R & E).
  rewrite (extends_performed _ _ _ E) in *.
  destruct E as [Ht _].
  destruct (CreateOrUpdate r st) as [out st']; simpl in *.
  invert_runs; simpl in *.
  all: all_events Hpresent.
  all: try (exfalso; membership; fail).
  repeat split; [ | exact Ht]. intros e He. by events_of He.
Qed.

(** C9.  A [CreateOrUpdate] or a [Delete] that returns an error hands back
    the tenant status it was given, every field of it; so do their
    successful runs, [Define] and [CleanUp].  The recorded setup fingerprint
    is written by [UpdateTenantControlPlaneStatus], which sets it to the
    desired one. *)
Theorem status_written_by_update_only r st now :
  (forall err, (CreateOrUpdate r st).1.2 = Some err ->
     Status (tenant (CreateOrUpdate r st).2) = Status (tenant st))
  /\ (forall err, (Delete r st).1 = Some err ->
       Status (tenant (Delete r st).2) = Status (tenant st))
  /\ tenant (CreateOrUpdate r st).2 = tenant st
  /\ tenant (Delete r st).2 = tenant st
  /\ tenant (Define r st).2 = tenant st
  /\ tenant (CleanUp r st).2 = tenant st
  /\ Setup_Checksum
       (StorageSetup (tenant (UpdateTenantControlPlaneStatus r now st).2))
     = Config_Checksum (StorageConfig (tenant st)).
Proof.
  repeat split.
  - intros _ _. by rewrite CreateOrUpdate_tenant.
  - intros _ _. by rewrite Delete_tenant.
  - apply CreateOrUpdate_tenant.
  - apply Delete_tenant.
  - apply Define_tenant.
Qed.

End Contract.

End SetupFacts.

(** * The Setup resource on the in-memory datastore *)

Module SetupScenarios.
Import v1alpha1 controllerutil utils DatastoreSetup Fixtures Tactics SetupFacts.

(** A tenant that was never provisioned, and the same tenant with the
    fingerprint of its first provisioning recorded. *)
Lemma scenario_first_provisioning :
  (CreateOrUpdate (setup_for tenantA)
     (state_of (tenant_with nothing_recorded "" "cfgHash1") MemStore.empty)).1
  = (OperationResultCreated, None)
  /\ world (CreateOrUpdate (setup_for tenantA)
       (state_of (tenant_with nothing_recorded "" "cfgHash1") MemStore.empty)).2
     = provisioned tenantA.
Proof. split; vm_compute; reflexivity. Qed.

(** [Define] reads the three names from the secret: the resource the
    scenarios below run is the one a cycle works with after [Define]. *)
Lemma scenario_define :
  (Define (undefined_setup tenantA_renamed)
     (state_of (tenant_with tenantA "cfgHash1" "cfgHash2")
               (provisioned tenantA))).1
  = (setup_for tenantA_renamed, None).
Proof. vm_compute. reflexivity. Qed.

(** Witness of C3: the first provisioning of [tenantA] on an empty store
    leaves the store with its three artifacts. *)
Lemma CreateOrUpdate_provisioning_witness :
  drifted (tenant_with nothing_recorded "" "cfgHash1") = false
  /\ (CreateOrUpdate (setup_for tenantA)
        (state_of (tenant_with nothing_recorded "" "cfgHash1")
                  MemStore.empty)).1.1
     = OperationResultCreated
  /\ world (CreateOrUpdate (setup_for tenantA)
        (state_of (tenant_with nothing_recorded "" "cfgHash1")
                  MemStore.empty)).2
     = provisioned tenantA.
Proof.
  split; [reflexivity | ].
  destruct (CreateOrUpdate_provisioning (setup_for tenantA)
              (state_of (tenant_with nothing_recorded "" "cfgHash1")
                        MemStore.empty) eq_refl)
    as (_ & Hf & _ & _ & _ & _ & _ & _ & _ & _ & _ & _ & _ & Hres & _).
  split.
  - etransitivity; [exact Hres | vm_compute; reflexivity].
  - etransitivity; [symmetry; exact (f_equal snd Hf) | ].
    vm_compute. reflexivity.
Defined.

(** A failure half-way: the schema is created, creating the user fails; the
    schema stays and the error names the user. *)
Lemma scenario_failed_user :
  (CreateOrUpdate (setup_for tenantA)
     (state_of (tenant_with nothing_recorded "" "cfgHash1")
               no_user_creation)).1
  = (OperationResultCreated,
     Some (Wrap MemStore.unreachable "unable to create the user"))
  /\ MemStore.schemas
       (world (CreateOrUpdate (setup_for tenantA)
          (state_of (tenant_with nothing_recorded "" "cfgHash1")
                    no_user_creation)).2)
     = {[ "tenantA" ]}.
Proof. split; vm_compute; reflexivity. Qed.

(** Witness of C4: [Delete] on the datastore that holds the three artifacts
    of [tenantA] removes them and returns nil. *)
Lemma Delete_teardown_witness :
  (Delete (setup_for tenantA)
     (state_of (tenant_with tenantA "cfgHash1" "cfgHash2")
               (provisioned tenantA))).1
  = None
  /\ world (Delete (setup_for tenantA)
       (state_of (tenant_with tenantA "cfgHash1" "cfgHash2")
                 (provisioned tenantA))).2
     = MemStore.empty.
Proof.
  destruct (Delete_teardown (setup_for tenantA)
              (state_of (tenant_with tenantA "cfgHash1" "cfgHash2")
                        (provisioned tenantA)))
    as (_ & Hf & _ & _ & _ & _ & _ & _ & _ & _ & _ & _ & _ & Hnil & _).
  split.
  - apply Hnil. intros e He. eval_events He. by events_of He.
  - etransitivity; [symmetry; exact (f_equal snd Hf) | ].
    vm_compute. reflexivity.
Defined.

(** Counterexample to C1 as stated.  The status records schema [tenantA] and
    user [u1] for the fingerprint [cfgHash1]; the credentials of this cycle
    name [tenantA_v2] and [u2].  [CreateOrUpdate] succeeds with [Updated],
    the status update records [cfgHash2], and the schema, the user and the
    grant recorded for [cfgHash1] are all still in the datastore. *)
Lemma CreateOrUpdate_drift_keeps_recorded_artifacts :
  drifted (tenant_with tenantA "cfgHash1" "cfgHash2") = true
  /\ (CreateOrUpdate (setup_for tenantA_renamed)
        (state_of (tenant_with tenantA "cfgHash1" "cfgHash2")
                  (provisioned tenantA))).1
     = (OperationResultUpdated, None)
  /\ world (CreateOrUpdate (setup_for tenantA_renamed)
        (state_of (tenant_with tenantA "cfgHash1" "cfgHash2")
                  (provisioned tenantA))).2
     = provisioned tenantA
  /\ (datastore.DBExists MemStore.conn
        (Setup_Schema (StorageSetup (tenant_with tenantA "cfgHash1" "cfgHash2")))
        (provisioned tenantA)).1 = (true, None)
  /\ (datastore.UserExists MemStore.conn
        (Setup_User (StorageSetup (tenant_with tenantA "cfgHash1" "cfgHash2")))
        (provisioned tenantA)).1 = (true, None)
  /\ (datastore.GrantPrivilegesExists MemStore.conn
        (Setup_User (StorageSetup (tenant_with tenantA "cfgHash1" "cfgHash2")))
        (Setup_Schema (StorageSetup (tenant_with tenantA "cfgHash1" "cfgHash2")))
        (provisioned tenantA)).1 = (true, None)
  /\ Setup_Checksum (StorageSetup (tenant
       (UpdateTenantControlPlaneStatus (setup_for tenantA_renamed) 1%Z
          (CreateOrUpdate (setup_for tenantA_renamed)
             (state_of (tenant_with tenantA "cfgHash1" "cfgHash2")
                       (provisioned tenantA))).2).2))
     = "cfgHash2".
Proof. repeat split; vm_compute; reflexivity. Qed.

(** Witness of C1 as amended: the same drift with unchanged names; the three
    artifacts are removed and the call returns [Updated]. *)
Lemma CreateOrUpdate_drift_repair_witness :
  drifted (tenant_with tenantA "cfgHash1" "cfgHash2") = true
  /\ (CreateOrUpdate (setup_for tenantA)
        (state_of (tenant_with tenantA "cfgHash1" "cfgHash2")
                  (provisioned tenantA))).1.2 = None
  /\ (CreateOrUpdate (setup_for tenantA)
        (state_of (tenant_with tenantA "cfgHash1" "cfgHash2")
                  (provisioned tenantA))).1.1 = OperationResultUpdated
  /\ world (CreateOrUpdate (setup_for tenantA)
        (state_of (tenant_with tenantA "cfgHash1" "cfgHash2")
                  (provisioned tenantA))).2
     = MemStore.empty.
Proof.
  split; [reflexivity | ]. split; [reflexivity | ].
  destruct (CreateOrUpdate_drift_repair (setup_for tenantA)
              (state_of (tenant_with tenantA "cfgHash1" "cfgHash2")
                        (provisioned tenantA)) 1%Z eq_refl eq_refl)
    as (H & _ & Hf & _).
  split; [exact H | ].
  etransitivity; [symmetry; exact (f_equal snd Hf) | ].
  vm_compute. reflexivity.
Defined.

(** What that repair leaves behind: an empty datastore. *)
Lemma scenario_drift_repair :
  world (CreateOrUpdate (setup_for tenantA)
     (state_of (tenant_with tenantA "cfgHash1" "cfgHash2")
               (provisioned tenantA))).2
  = MemStore.empty
  /\ calls (history (CreateOrUpdate (setup_for tenantA)
       (state_of (tenant_with tenantA "cfgHash1" "cfgHash2")
                 (provisioned tenantA))).2)
     = teardown_order (setup_for tenantA).
Proof. split; vm_compute; reflexivity. Qed.

(** On the in-memory datastore a [Delete] that returns nil leaves none of the
    three artifacts its credentials name. *)
Lemma Delete_removes_named_artifacts (res : SetupResource)
    (st : State MemStore.Store)
    (Hok : (Delete (setup_for res) st).1 = None) :
  (schema res ∉ MemStore.schemas (world (Delete (setup_for res) st).2))
  /\ (MemStore.users (world (Delete (setup_for res) st).2) !! user res = None)
  /\ ((user res, schema res)
       ∉ MemStore.grants (world (Delete (setup_for res) st).2)).
Proof.
  revert Hok. unfold Delete, revokeGrantPrivileges, deleteDB, deleteUser.
  unfold_monad. simpl.
  unfold MemStore.check, MemStore.change, MemStore.fails.
  repeat (case_bool_decide; simpl; try discriminate).
  all: intros _; split; [ | split]; simpl.
  all: first [ apply lookup_delete_eq
             | apply eq_None_not_Some; assumption
             | assumption
             | apply not_elem_of_difference; right; by apply elem_of_singleton ].
Qed.

(** Witness of the removal: the repair of [tenantA] above. *)
Lemma Delete_removes_named_artifacts_witness :
  (Delete (setup_for tenantA)
     (state_of (tenant_with tenantA "cfgHash1" "cfgHash2")
               (provisioned tenantA))).1 = None
  /\ (schema tenantA
       ∉ MemStore.schemas (world (Delete (setup_for tenantA)
           (state_of (tenant_with tenantA "cfgHash1" "cfgHash2")
                     (provisioned tenantA))).2)).
Proof.
  split; [reflexivity | ].
  exact (proj1 (Delete_removes_named_artifacts tenantA
                  (state_of (tenant_with tenantA "cfgHash1" "cfgHash2")
                            (provisioned tenantA)) eq_refl)).
Defined.

(** Counterexample to C5 as stated.  The desired fingerprint stays
    [cfgHash2] throughout and the first [CreateOrUpdate] succeeds.  Called
    again at once, [CreateOrUpdate] returns [Updated], not the no-op result;
    called again after the status update the driver makes in between, it
    creates the three artifacts and returns [Created]. *)
Lemma CreateOrUpdate_twice_after_drift :
  (CreateOrUpdate (setup_for tenantA)
     (state_of (tenant_with tenantA "cfgHash1" "cfgHash2")
               (provisioned tenantA))).1
  = (OperationResultUpdated, None)
  /\ (CreateOrUpdate (setup_for tenantA)
        (CreateOrUpdate (setup_for tenantA)
           (state_of (tenant_with tenantA "cfgHash1" "cfgHash2")
                     (provisioned tenantA))).2).1
     = (OperationResultUpdated, None)
  /\ (CreateOrUpdate (setup_for tenantA)
        (UpdateTenantControlPlaneStatus (setup_for tenantA) 1%Z
           (CreateOrUpdate (setup_for tenantA)
              (state_of (tenant_with tenantA "cfgHash1" "cfgHash2")
                        (provisioned tenantA))).2).2).1
     = (OperationResultCreated, None)
  /\ Config_Checksum (StorageConfig (tenant
       (UpdateTenantControlPlaneStatus (setup_for tenantA) 1%Z
          (CreateOrUpdate (setup_for tenantA)
             (state_of (tenant_with tenantA "cfgHash1" "cfgHash2")
                       (provisioned tenantA))).2).2))
     = "cfgHash2".
Proof. repeat split; vm_compute; reflexivity. Qed.

(** Witness of C5 as amended: the second of two calls for a tenant that was
    never provisioned before. *)
Lemma CreateOrUpdate_idempotent_witness :
  (CreateOrUpdate (setup_for tenantA)
     (state_of (tenant_with nothing_recorded "" "cfgHash1") MemStore.empty)).1.2
  = None
  /\ (CreateOrUpdate (setup_for tenantA)
        (CreateOrUpdate (setup_for tenantA)
           (state_of (tenant_with nothing_recorded "" "cfgHash1")
                     MemStore.empty)).2).1
     = (OperationResultNone, None).
Proof.
  split; [reflexivity | ].
  destruct (CreateOrUpdate_idempotent (setup_for tenantA)
              (CreateOrUpdate (setup_for tenantA)
                 (state_of (tenant_with nothing_recorded "" "cfgHash1")
                           MemStore.empty)).2)
    as (H & _).
  - reflexivity.
  - intros e He _. eval_events He. events_of He; split; reflexivity.
  - exact H.
Defined.

(** Witness of C9: a provisioning that fails at the user, and a teardown that
    fails at the schema; the status is the one handed in. *)
Lemma status_written_by_update_only_witness :
  (CreateOrUpdate (setup_for tenantA)
     (state_of (tenant_with nothing_recorded "" "cfgHash1")
               no_user_creation)).1.2
  = Some (Wrap MemStore.unreachable "unable to create the user")
  /\ Status (tenant (CreateOrUpdate (setup_for tenantA)
       (state_of (tenant_with nothing_recorded "" "cfgHash1")
                 no_user_creation)).2)
     = Status (tenant_with nothing_recorded "" "cfgHash1")
  /\ (Delete (setup_for tenantA)
        (state_of (tenant_with tenantA "cfgHash1" "cfgHash2")
                  no_schema_removal)).1
     = Some (Wrap MemStore.unreachable "unable to delete the datastore")
  /\ Status (tenant (Delete (setup_for tenantA)
       (state_of (tenant_with tenantA "cfgHash1" "cfgHash2")
                 no_schema_removal)).2)
     = Status (tenant_with tenantA "cfgHash1" "cfgHash2").
Proof.
  split; [reflexivity | ]. split.
  - exact (proj1 (status_written_by_update_only (setup_for tenantA)
             (state_of (tenant_with nothing_recorded "" "cfgHash1")
                       no_user_creation) 1%Z) _ eq_refl).
  - split; [reflexivity | ].
    exact (proj1 (proj2 (status_written_by_update_only (setup_for tenantA)
             (state_of (tenant_with tenantA "cfgHash1" "cfgHash2")
                       no_schema_removal) 1%Z)) _ eq_refl).
Defined.

(** C2 on two tenants: the driver recorded is the desired one, so the answer
    is false even though the fingerprints differ. *)
Lemma scenario_status_not_updated :
  ShouldStatusBeUpdated (setup_for tenantA)
    (tenant_with tenantA "cfgHash1" "cfgHash2") = false
  /\ drifted (tenant_with tenantA "cfgHash1" "cfgHash2") = true.
Proof. split; reflexivity. Qed.

End SetupScenarios.

(** * Properties of the kubeadm add-on resource *)

Module AddonFacts.
Import v1alpha1 KubeadmAddons Tactics.
Local Open Scope Z_scope.

Section Addon.
Context {K Clientset : Type}.
Implicit Types (r : KubeadmAddonResource) (tcp : TenantControlPlane)
  (env : Collaborators K Clientset) (st : State K).

Lemma KubeadmAddon_String_known (d : KubeadmAddon) :
  d = AddonCoreDNS \/ d = AddonKubeProxy -> is_Some (KubeadmAddon_String d).
Proof. intros [-> | ->]; by eexists. Qed.

Lemma KubeadmAddon_String_unknown (d : KubeadmAddon) :
  d <> AddonCoreDNS -> d <> AddonKubeProxy -> KubeadmAddon_String d = None.
Proof.
  unfold AddonCoreDNS, AddonKubeProxy, KubeadmAddon_String. intros H0 H1.
  case_bool_decide; [ | reflexivity].
  apply lookup_ge_None. simpl. lia.
Qed.

(** C7, as the code has it.  For the DNS and the proxy add-on,
    [ShouldCleanup] is true exactly when the tenant's spec does not declare
    the add-on; the tenant's status has no part in the answer. *)
Theorem ShouldCleanup_iff_spec_absent r tcp :
  (r_KubeadmAddon r = AddonCoreDNS ->
   (ShouldCleanup r tcp = true <->
    Spec_CoreDNS (Spec_Addons (Spec tcp)) = None))
  /\ (r_KubeadmAddon r = AddonKubeProxy ->
      (ShouldCleanup r tcp = true <->
       Spec_KubeProxy (Spec_Addons (Spec tcp)) = None))
  /\ (forall tcp', Spec tcp' = Spec tcp ->
        ShouldCleanup r tcp' = ShouldCleanup r tcp).
Proof.
  unfold ShouldCleanup, getSpec, AddonCoreDNS, AddonKubeProxy.
  repeat split.
  - rewrite H in *. by apply bool_decide_eq_true.
  - rewrite H. intros. by apply bool_decide_eq_true.
  - rewrite H in *. by apply bool_decide_eq_true.
  - rewrite H. intros. by apply bool_decide_eq_true.
  - intros tcp' ->. reflexivity.
Qed.

(** C8.  For the DNS and the proxy add-on, once the tenant client is there,
    [CleanUp] returns [(true, nil)] when the remover succeeds, [(false, nil)]
    when the remover fails with a not-found error, and [(false, err)] with
    the remover's error when it fails with any other error. *)
Theorem CleanUp_follows_remover env r st client st1
    (Hknown : r_KubeadmAddon r = AddonCoreDNS
              \/ r_KubeadmAddon r = AddonKubeProxy)
    (Hclient : external (GetTenantClientSet env (tenant st)) st
               = ((client, None), st1)) :
  exists remover,
    getRemoveAddonFunction r = (Some remover, None)
    /\ ((call_remover env remover client st1).1 = None ->
        (CleanUp env r st).1 = Returned (true, None))
    /\ (forall err, (call_remover env remover client st1).1 = Some err ->
          IsNotFound err = true ->
          (CleanUp env r st).1 = Returned (false, None))
    /\ (forall err, (call_remover env remover client st1).1 = Some err ->
          IsNotFound err = false ->
          (CleanUp env r st).1 = Returned (false, Some err)).
Proof.
  unfold CleanUp, getRemoveAddonFunction, bind, gets, ret.
  destruct Hknown as [Hd | Hd]; rewrite Hd; simpl; rewrite Hclient.
  - exists RemoveCoreDNSAddon. split; [reflexivity | ].
    unfold call_remover.
    destruct (external (kubeadm_RemoveCoreDNSAddon env client) st1)
      as [[err|] st2]; simpl.
    + split; [discriminate | ].
      split; intros ? [= <-] ->; reflexivity.
    + split; [reflexivity | ]. split; discriminate.
  - exists RemoveKubeProxy. split; [reflexivity | ].
    unfold call_remover.
    destruct (external (kubeadm_RemoveKubeProxy env client) st1)
      as [[err|] st2]; simpl.
    + split; [discriminate | ].
      split; intros ? [= <-] ->; reflexivity.
    + split; [reflexivity | ]. split; discriminate.
Qed.

(** C10, as the code has it.  For a discriminant that is neither the DNS nor
    the proxy add-on, the four selectors return an error that names the
    discriminant.  [ShouldCleanup] and [ShouldStatusBeUpdated] return a
    boolean only: they drop that error and answer [false] and [true]. *)
Theorem unknown_discriminant r tcp
    (Hdns : r_KubeadmAddon r <> AddonCoreDNS)
    (Hproxy : r_KubeadmAddon r <> AddonKubeProxy) :
  getSpec r tcp = (false, Some (Errorf "%s has no spec" (r_KubeadmAddon r)))
  /\ GetStatus r tcp
     = (None, Some (Errorf "%s has no addon status" (r_KubeadmAddon r)))
  /\ getRemoveAddonFunction r
     = (None, Some (Errorf "no available functionality for removing addon %s"
                           (r_KubeadmAddon r)))
  /\ GetKubeadmFunction r
     = (None, Some (Errorf "no available functionality for phase %s"
                           (r_KubeadmAddon r)))
  /\ ShouldCleanup r tcp = false
  /\ ShouldStatusBeUpdated r tcp = true.
Proof.
  unfold ShouldStatusBeUpdated, isStatusEqual, ShouldCleanup, getSpec,
    GetStatus, getRemoveAddonFunction, GetKubeadmFunction,
    AddonCoreDNS, AddonKubeProxy in *.
  case_addon r; try contradiction; repeat split.
Qed.

(** With such a discriminant [CleanUp] and [UpdateTenantControlPlaneStatus]
    do not come to return anything: building the logger evaluates
    [KubeadmAddon.String], which indexes its array out of range. *)
Theorem unknown_discriminant_panics env r st
    (Hdns : r_KubeadmAddon r <> AddonCoreDNS)
    (Hproxy : r_KubeadmAddon r <> AddonKubeProxy) :
  CleanUp env r st = (Panicked index_out_of_range, st)
  /\ UpdateTenantControlPlaneStatus r st = (Panicked index_out_of_range, st).
Proof.
  unfold CleanUp, UpdateTenantControlPlaneStatus.
  by rewrite KubeadmAddon_String_unknown.
Qed.

End Addon.

End AddonFacts.

(** * The add-on resource on a concrete tenant cluster *)

Module AddonScenarios.
Import v1alpha1 KubeadmAddons Fixtures AddonFacts.
Local Open Scope Z_scope.

(** Counterexample to C7 as stated.  The spec declares no proxy add-on and
    the status records none either (its fingerprint is empty), yet
    [ShouldCleanup] is true. *)
Lemma ShouldCleanup_without_recorded_addon :
  Spec_KubeProxy (Spec_Addons (Spec (tenant_addons (Some addonSpec) None "" "")))
  = None
  /\ Addon_Checksum (Status_KubeProxy (Status_Addons
       (Status (tenant_addons (Some addonSpec) None "" "")))) = ""
  /\ ShouldCleanup (addon AddonKubeProxy)
       (tenant_addons (Some addonSpec) None "" "") = true.
Proof. repeat split. Qed.

(** Witness of C7 as amended: the proxy add-on taken out of the spec while
    its fingerprint is still recorded. *)
Lemma ShouldCleanup_iff_spec_absent_witness :
  r_KubeadmAddon (addon AddonKubeProxy) = AddonKubeProxy
  /\ ShouldCleanup (addon AddonKubeProxy)
       (tenant_addons (Some addonSpec) None "" "kubeadmHash1") = true.
Proof.
  split; [reflexivity | ].
  apply (proj1 (proj2 (ShouldCleanup_iff_spec_absent (addon AddonKubeProxy)
           (tenant_addons (Some addonSpec) None "" "kubeadmHash1")))
           eq_refl).
  reflexivity.
Defined.

(** Witness of C8: the proxy add-on is not in the tenant cluster, the remover
    reports not-found, [CleanUp] returns [(false, nil)]. *)
Lemma CleanUp_follows_remover_witness :
  IsNotFound (FakeCluster.notFound "kube-proxy") = true
  /\ (CleanUp FakeCluster.env (addon AddonKubeProxy)
        (cluster_state (tenant_addons (Some addonSpec) None "" "kubeadmHash1")
           {| FakeCluster.installed := ["coredns"];
              FakeCluster.down := false |})).1
     = Returned (false, None).
Proof.
  split; [reflexivity | ].
  destruct (CleanUp_follows_remover FakeCluster.env (addon AddonKubeProxy)
              (cluster_state
                 (tenant_addons (Some addonSpec) None "" "kubeadmHash1")
                 {| FakeCluster.installed := ["coredns"];
                    FakeCluster.down := false |})
              tt _ (or_intror eq_refl) eq_refl)
    as (remover & Hsel & _ & Hnotfound & _).
  injection Hsel as <-.
  exact (Hnotfound _ eq_refl eq_refl).
Defined.

(** The other two outcomes of [CleanUp] on the same tenant. *)
Lemma scenario_cleanup_outcomes :
  (CleanUp FakeCluster.env (addon AddonKubeProxy)
     (cluster_state (tenant_addons (Some addonSpec) None "" "kubeadmHash1")
        {| FakeCluster.installed := ["coredns"; "kube-proxy"];
           FakeCluster.down := false |})).1
  = Returned (true, None)
  /\ (CleanUp FakeCluster.env (addon AddonKubeProxy)
        (cluster_state (tenant_addons (Some addonSpec) None "" "kubeadmHash1")
           {| FakeCluster.installed := ["coredns"; "kube-proxy"];
              FakeCluster.down := true |})).1
     = Returned (false, Some FakeCluster.unavailable).
Proof. split; vm_compute; reflexivity. Qed.

(** Counterexample to C10 as stated.  With discriminant 2 the selector
    behind [ShouldCleanup] returns an error, and [ShouldCleanup] answers
    [false] all the same; [ShouldStatusBeUpdated] answers [true]. *)
Lemma unknown_discriminant_is_silent :
  (getSpec (addon 2) (tenant_addons None None "" "")).2
  = Some (Errorf "%s has no spec" 2)
  /\ ShouldCleanup (addon 2) (tenant_addons None None "" "") = false
  /\ (GetStatus (addon 2) (tenant_addons None None "" "")).2
     = Some (Errorf "%s has no addon status" 2)
  /\ ShouldStatusBeUpdated (addon 2) (tenant_addons None None "" "") = true.
Proof. repeat split. Qed.

(** Witness of C10 as amended, at discriminant 2. *)
Lemma unknown_discriminant_witness :
  ShouldCleanup (addon 2) (tenant_addons None None "" "") = false
  /\ ShouldStatusBeUpdated (addon 2) (tenant_addons None None "" "") = true.
Proof.
  destruct (unknown_discriminant (addon 2) (tenant_addons None None "" ""))
    as (_ & _ & _ & _ & H1 & H2).
  - discriminate.
  - discriminate.
  - exact (conj H1 H2).
Defined.

(** Witness of the panic, at discriminant 2. *)
Lemma unknown_discriminant_panics_witness :
  (CleanUp FakeCluster.env (addon 2)
     (cluster_state (tenant_addons None None "" "")
        {| FakeCluster.installed := []; FakeCluster.down := false |})).1
  = Panicked index_out_of_range.
Proof.
  rewrite (proj1 (unknown_discriminant_panics FakeCluster.env (addon 2)
             (cluster_state (tenant_addons None None "" "")
                {| FakeCluster.installed := []; FakeCluster.down := false |})
             ltac:(discriminate) ltac:(discriminate))).
  reflexivity.
Defined.

End AddonScenarios.

(** * More on the datastore Setup resource: preparation, status, failures *)

Module SetupCycle.
Import v1alpha1 controllerutil utils DatastoreSetup Tactics SetupFacts.

Section Cycle.
Context {W : Type}.
Implicit Types (r : Setup W) (st : State W) (tcp : TenantControlPlane).

(** [Define] reads the secret named by the tenant's storage configuration
    and makes no call on the connection.  When the read fails the error is
    returned and logged, and the resource keeps what it held; when it
    succeeds the resource holds the values under [DB_SCHEMA], [DB_USER] and
    [DB_PASSWORD], the empty string for a key the secret lacks, and nothing
    else of the receiver changes. *)
Theorem Define_reads_secret r st :
  let out := Define r st in
  let read := client r (Namespace (tenant st))
                       (Config_SecretName (StorageConfig (tenant st))) in
  tenant out.2 = tenant st /\ world out.2 = world st
  /\ history out.2 = history st
  /\ client out.1.1 = client r /\ Connection out.1.1 = Connection r
  /\ DataStore out.1.1 = DataStore r
  /\ out.1.2 = read.2
  /\ (forall err, read.2 = Some err ->
        out.1.1 = r
        /\ logged out.2
           = logged st
             ++ [("cannot retrieve the DataStore Configuration secret", err)])
  /\ (read.2 = None ->
        logged out.2 = logged st
        /\ schema (resource out.1.1) = default "" (Data read.1 !! "DB_SCHEMA")
        /\ user (resource out.1.1) = default "" (Data read.1 !! "DB_USER")
        /\ password (resource out.1.1)
           = default "" (Data read.1 !! "DB_PASSWORD")).
Proof.
  unfold Define, bind, gets, ret, logger_Error, modify, data_string. simpl.
  destruct (client r _ _) as [secret [err|]]; simpl.
  - do 7 (split; [reflexivity | ]). split; [ | discriminate].
    intros ? [= <-]. by split.
  - do 7 (split; [reflexivity | ]). split; [discriminate | ].
    intros _. by repeat split.
Qed.

(** [UpdateTenantControlPlaneStatus] returns nil and writes the setup record
    of the storage status, nothing else: schema and user of the resource, the
    time it was given, and the desired fingerprint.  The tenant it leaves is
    not drifted, and no resource finds its status in need of an update. *)
Theorem UpdateTenantControlPlaneStatus_writes_setup_only r r' now st :
  let out := UpdateTenantControlPlaneStatus r now st in
  out.1 = None
  /\ world out.2 = world st /\ history out.2 = history st
  /\ logged out.2 = logged st
  /\ Namespace (tenant out.2) = Namespace (tenant st)
  /\ Spec (tenant out.2) = Spec (tenant st)
  /\ Status_Addons (Status (tenant out.2)) = Status_Addons (Status (tenant st))
  /\ Storage_Driver (Status_Storage (Status (tenant out.2)))
     = Storage_Driver (Status_Storage (Status (tenant st)))
  /\ StorageConfig (tenant out.2) = StorageConfig (tenant st)
  /\ StorageSetup (tenant out.2)
     = {| Setup_Schema := schema (resource r);
          Setup_User := user (resource r);
          Setup_LastUpdate := now;
          Setup_Checksum := Config_Checksum (StorageConfig (tenant st)) |}
  /\ drifted (tenant out.2) = false
  /\ ShouldStatusBeUpdated r' (tenant out.2) = false.
Proof.
  unfold UpdateTenantControlPlaneStatus, bind, gets, modify, ret; simpl.
  repeat split.
  - unfold drifted; simpl. apply andb_false_iff. right.
    by apply string_neq_false.
  - unfold ShouldStatusBeUpdated; simpl. apply andb_false_iff. right.
    by apply string_neq_false.
Qed.

Lemma drifted_after_update r now st :
  drifted (tenant (UpdateTenantControlPlaneStatus r now st).2) = false.
Proof.
  unfold UpdateTenantControlPlaneStatus, bind, gets, modify, ret, drifted.
  simpl. apply andb_false_iff. right. by apply string_neq_false.
Qed.

(** The [CreateOrUpdate] that follows a status update, whatever resource runs
    it and whatever the connection answers, is never a drift repair: it makes
    no removing call and does not return [Updated]. *)
Theorem CreateOrUpdate_after_update r r' now st :
  let st1 := (UpdateTenantControlPlaneStatus r now st).2 in
  let out := CreateOrUpdate r' st1 in
  (forall e, e ∈ performed st1 out.2 ->
     datastore.removing (datastore.ev_call e) = false)
  /\ out.1.1 <> OperationResultUpdated.
Proof.
  cbv zeta.
  destruct (provisioning_run r' _ (drifted_after_update r now st))
    as (evs & R & E).
  rewrite (extends_performed _ _ _ E). clear E.
  destruct (CreateOrUpdate r' _) as [[res err] st']; simpl in *. clear st'.
  invert_runs; simpl.
  all: split; [intros e He; by events_of He | discriminate].
Qed.

(** A [Delete] that fails stopped at the call that failed: that call is the
    last one made and the only one that returned an error, and the error
    [Delete] returns wraps it with the message of that call.  A [Delete] that
    returns nil saw no call fail. *)
Theorem Delete_failure r st :
  let out := Delete r st in
  let evs := performed st out.2 in
  (out.1 = None <-> forall e, e ∈ evs -> datastore.ev_err e = None)
  /\ (forall err, out.1 = Some err ->
        exists e cause,
          last evs = Some e /\ datastore.ev_err e = Some cause
          /\ err = Wrap cause (failure_context (datastore.ev_call e))
          /\ forall e', e' ∈ evs -> datastore.ev_err e' <> None -> e' = e).
Proof.
  destruct (Delete_run r st) as (evs & R & E).
  simpl. rewrite (extends_performed _ _ _ E). clear E.
  destruct (Delete r st) as [res st']; simpl in *. clear st'.
  invert_runs; simpl.
  all: split;
    [ split;
      [ try discriminate; intros _ e He; by events_of He
      | intros Hall; try reflexivity; all_events Hall; discriminate ]
    | ].
  all: intros err' Herr; try discriminate.
  all: injection Herr as <-; eexists _, _; repeat split.
  all: intros e' He' Hne; events_of He'; try reflexivity.
  all: by destruct Hne.
Qed.

(** Failures are logged once.  A [Delete] or a [CreateOrUpdate] that returns
    nil logs nothing; one that returns an error logs exactly one line, and
    that line carries the error returned. *)
Theorem failures_logged_once r st :
  match (Delete r st).1 with
  | None => logged (Delete r st).2 = logged st
  | Some err => exists msg, logged (Delete r st).2 = logged st ++ [(msg, err)]
  end
  /\ match (CreateOrUpdate r st).1.2 with
     | None => logged (CreateOrUpdate r st).2 = logged st
     | Some err =>
         exists msg, logged (CreateOrUpdate r st).2 = logged st ++ [(msg, err)]
     end.
Proof.
  split.
  - unfold Delete, revokeGrantPrivileges, deleteDB, deleteUser. unfold_monad.
    repeat (simpl; case_conn); simpl; by eauto.
  - unfold CreateOrUpdate, Delete, revokeGrantPrivileges, deleteDB, deleteUser,
      createDB, createUser, createGrantPrivileges. unfold_monad.
    destruct (drifted (tenant st)).
    + repeat (simpl; case_conn); simpl; by eauto.
    + repeat (simpl; case_conn); simpl; by eauto.
Qed.

(** The aggregate of a list of events is [Created] when one of them created
    an artifact, and a no-op otherwise. *)
Lemma strongest_created (evs : list datastore.Event) :
  strongest evs = OperationResultCreated
  <-> exists e, e ∈ evs /\ created e = true.
Proof.
  induction evs as [|e' evs IH]; simpl.
  - split; [discriminate | ]. intros (e & He & _). by apply elem_of_nil in He.
  - unfold contribution at 1. destruct (created e') eqn:Hc.
    + split; [ | by destruct (strongest evs)].
      intros _. exists e'. split; [apply list_elem_of_here | done].
    + assert (UpdateOperationResult (strongest evs) OperationResultNone
              = strongest evs) as -> by by destruct (strongest evs).
      rewrite IH. split.
      * intros (e & He & Hce). exists e.
        split; [by apply list_elem_of_further | done].
      * intros (e & He & Hce). apply elem_of_cons in He as [-> | He].
        -- congruence.
        -- by exists e.
Qed.

Lemma strongest_not_updated (evs : list datastore.Event) :
  strongest evs <> OperationResultUpdated.
Proof.
  induction evs as [|e evs IH]; simpl; [discriminate | ].
  unfold contribution. by destruct (created e), (strongest evs).
Qed.

Lemma provisioning_result r evs res err :
  provision_run (provisioning_steps r) OperationResultNone evs (res, err) ->
  res = strongest evs.
Proof. intros R. invert_runs; reflexivity. Qed.

(** [CreateOrUpdate] returns [Updated] exactly from a drift repair that went
    through, and [Created] exactly when, outside drift repair, one of its
    creating calls went through; a drift repair is the run of [Delete], with
    its error and its state. *)
Theorem CreateOrUpdate_result r st :
  let out := CreateOrUpdate r st in
  (out.1.1 = OperationResultUpdated <->
   drifted (tenant st) = true /\ out.1.2 = None)
  /\ (out.1.1 = OperationResultCreated <->
      drifted (tenant st) = false
      /\ exists e, e ∈ performed st out.2 /\ created e = true)
  /\ (drifted (tenant st) = true ->
      out.1.2 = (Delete r st).1 /\ out.2 = (Delete r st).2).
Proof.
  cbv zeta. destruct (drifted (tenant st)) eqn:Hd.
  - destruct (drift_repair_run r st Hd) as (evs & err & _ & Hout & _).
    split; [ | split].
    + rewrite Hout. simpl. destruct err; split; try done. by intros [_ ?].
    + rewrite Hout. simpl. destruct err; split; try done; by intros [? _].
    + intros _. unfold CreateOrUpdate, bind, gets. rewrite Hd.
      by destruct (Delete r st) as [[err'|] st'].
  - split; [ | split; [ | discriminate]].
    all: destruct (provisioning_run r st Hd) as (evs & R & E).
    all: rewrite ?(extends_performed _ _ _ E); clear E.
    all: destruct (CreateOrUpdate r st) as [[res err] st']; simpl in *.
    all: apply provisioning_result in R as ->.
    + split; [ | by intros [? _]].
      intros Hu. by apply strongest_not_updated in Hu.
    + rewrite strongest_created. split; [done | by intros [_ ?]].
Qed.

End Cycle.

End SetupCycle.

(** * The Setup resource against the in-memory datastore, in general *)

Module MemStoreFacts.
Import v1alpha1 controllerutil utils DatastoreSetup Fixtures Tactics SetupFacts.
Import StoreRelations StoreTactics.

(** With the three artifacts present nothing is created. *)
Lemma noop_when_held res (st : State MemStore.Store) :
  reachable (world st) -> holds res (world st) ->
  drifted (tenant st) = false ->
  CreateOrUpdate (setup_for res) st
  = ((OperationResultNone, None),
     {| tenant := tenant st; world := world st;
        history := history st
          ++ [datastore.answered (check_schema (setup_for res)) true;
              datastore.answered (check_user (setup_for res)) true;
              datastore.answered (check_grant (setup_for res)) true];
        logged := logged st |}).
Proof.
  intros Hreach (Hs & Hu & Hg) Hnd. unfold_setup. rewrite Hnd. simpl.
  unfold MemStore.check, MemStore.fails. unfold reachable in Hreach.
  repeat (first [rewrite Hreach | rewrite bool_decide_eq_true_2 by assumption];
          simpl).
  by rewrite <- !app_assoc.
Qed.

(** On a reachable in-memory datastore, outside drift repair,
    [CreateOrUpdate] does not fail and ends with the three artifacts of its
    credentials present.  A user that was there keeps the password it had.
    The result is the no-op exactly when all three were there already.  A
    second call right after returns the no-op result and leaves the datastore
    as the first one left it. *)
Theorem provisioning_converges res (st : State MemStore.Store)
    (Hreach : reachable (world st))
    (Hnd : drifted (tenant st) = false) :
  let out := CreateOrUpdate (setup_for res) st in
  let again := CreateOrUpdate (setup_for res) out.2 in
  out.1.2 = None
  /\ holds res (world out.2)
  /\ reachable (world out.2)
  /\ (forall p0, MemStore.users (world st) !! user res = Some p0 ->
        MemStore.users (world out.2) !! user res = Some p0)
  /\ (out.1.1 = OperationResultNone <-> holds res (world st))
  /\ again.1 = (OperationResultNone, None)
  /\ world again.2 = world out.2.
Proof.
  cbv zeta.
  assert (out_ok : (CreateOrUpdate (setup_for res) st).1.2 = None
    /\ holds res (world (CreateOrUpdate (setup_for res) st).2)
    /\ reachable (world (CreateOrUpdate (setup_for res) st).2)
    /\ (forall p0, MemStore.users (world st) !! user res = Some p0 ->
          MemStore.users (world (CreateOrUpdate (setup_for res) st).2)
            !! user res = Some p0)
    /\ ((CreateOrUpdate (setup_for res) st).1.1 = OperationResultNone
        <-> holds res (world st))).
  { unfold_setup. rewrite Hnd. clear Hnd.
    destruct st as [tcp [sch us gr br] h lg]. unfold reachable, holds in *.
    simpl in *. subst br.
    unfold MemStore.check, MemStore.change, MemStore.fails. simpl.
    repeat (case_bool_decide; simpl).
    all: repeat split; try done.
    all: try (apply elem_of_union_l; by apply elem_of_singleton).
    all: try (rewrite lookup_insert_eq; by eexists).
    all: try (by intros (? & ? & ?)).
    all: try (intros ? Hp; exfalso;
              match goal with
              | Hn : ¬ is_Some _ |- _ => apply Hn; rewrite Hp; by eexists
              end).
    }
  destruct out_ok as (Hok & Hheld & Hreach' & Hpw & Hnone).
  do 5 (split; [assumption | ]).
  rewrite (noop_when_held res _ Hreach' Hheld); [done | ].
  by rewrite CreateOrUpdate_tenant.
Qed.

(** Run against the in-memory datastore, [CreateOrUpdate] and [Delete] leave
    every schema, user and grant other than the three their credentials name
    as they found it, whatever they return. *)
Theorem other_artifacts_untouched res (st : State MemStore.Store) :
  same_elsewhere res (world st) (world (CreateOrUpdate (setup_for res) st).2)
  /\ same_elsewhere res (world st) (world (Delete (setup_for res) st).2).
Proof.
  split.
  - unfold_setup. destruct (drifted (tenant st)).
    + simpl. unfold MemStore.check, MemStore.change, MemStore.fails.
      repeat (case_bool_decide; simpl). all: elsewhere.
    + simpl. unfold MemStore.check, MemStore.change, MemStore.fails.
      repeat (case_bool_decide; simpl). all: elsewhere.
  - unfold_setup. simpl.
    unfold MemStore.check, MemStore.change, MemStore.fails.
    repeat (case_bool_decide; simpl). all: elsewhere.
Qed.

(** A drift repair on a reachable datastore goes through and leaves none of
    the three artifacts. *)
Lemma repair_empties res (st : State MemStore.Store) :
  reachable (world st) -> drifted (tenant st) = true ->
  (CreateOrUpdate (setup_for res) st).1 = (OperationResultUpdated, None)
  /\ lacks res (world (CreateOrUpdate (setup_for res) st).2)
  /\ reachable (world (CreateOrUpdate (setup_for res) st).2).
Proof.
  intros Hreach Hd. unfold_setup. rewrite Hd. clear Hd.
  destruct st as [tcp [sch us gr br] h lg]. unfold reachable, lacks in *.
  simpl in *. subst br.
  unfold MemStore.check, MemStore.change, MemStore.fails. simpl.
  repeat (case_bool_decide; simpl).
  all: repeat split; try done.
  all: first [ apply lookup_delete_eq
             | apply eq_None_not_Some; assumption
             | apply not_elem_of_difference; right; by apply elem_of_singleton ].
Qed.

(** From a datastore that has none of them, the three artifacts are
    created. *)
Lemma provision_from_nothing res (st : State MemStore.Store) :
  reachable (world st) -> lacks res (world st) ->
  drifted (tenant st) = false ->
  (CreateOrUpdate (setup_for res) st).1 = (OperationResultCreated, None)
  /\ holds res (world (CreateOrUpdate (setup_for res) st).2)
  /\ MemStore.users (world (CreateOrUpdate (setup_for res) st).2) !! user res
     = Some (password res).
Proof.
  intros Hreach (Hs & Hu & Hg) Hnd. unfold_setup. rewrite Hnd. clear Hnd.
  destruct st as [tcp [sch us gr br] h lg]. unfold reachable, holds in *.
  simpl in *. subst br.
  unfold MemStore.check, MemStore.change, MemStore.fails. simpl.
  rewrite (bool_decide_eq_false_2 _ Hs). simpl.
  rewrite bool_decide_eq_false_2 by (rewrite Hu; by intros [? ?]). simpl.
  rewrite (bool_decide_eq_false_2 _ Hg). simpl.
  repeat split.
  - apply elem_of_union_l. by apply elem_of_singleton.
  - rewrite lookup_insert_eq. by eexists.
  - apply elem_of_union_l. by apply elem_of_singleton.
  - apply lookup_insert_eq.
Qed.

(** On a reachable in-memory datastore a drift repair takes two cycles.  The
    first [CreateOrUpdate] returns [Updated] and leaves none of the three
    artifacts; after the status update the second one, run by the same
    resource, returns [Created] and leaves all three, the user with the
    password of the current credentials. *)
Theorem repair_takes_two_cycles res now (st : State MemStore.Store)
    (Hreach : reachable (world st))
    (Hd : drifted (tenant st) = true) :
  let first := CreateOrUpdate (setup_for res) st in
  let second :=
    CreateOrUpdate (setup_for res)
      (UpdateTenantControlPlaneStatus (setup_for res) now first.2).2 in
  first.1 = (OperationResultUpdated, None)
  /\ lacks res (world first.2)
  /\ second.1 = (OperationResultCreated, None)
  /\ holds res (world second.2)
  /\ MemStore.users (world second.2) !! user res = Some (password res).
Proof.
  cbv zeta.
  destruct (repair_empties res st Hreach Hd) as (Hfirst & Hlacks & Hreach').
  split; [exact Hfirst | ]. split; [exact Hlacks | ].
  apply provision_from_nothing.
  - exact Hreach'.
  - exact Hlacks.
  - apply SetupCycle.drifted_after_update.
Qed.

End MemStoreFacts.

(** * More on the add-on resource *)

Module AddonCycle.
Import v1alpha1 KubeadmAddons Tactics AddonFacts.
Local Open Scope Z_scope.

Section Addon.
Context {K Clientset : Type}.
Implicit Types (r : KubeadmAddonResource) (tcp : TenantControlPlane)
  (env : Collaborators K Clientset) (st : State K).

(** The DNS resource finds its status in need of an update exactly when the
    fingerprint recorded for the DNS add-on is not the one the resource was
    given, and the proxy resource likewise with the proxy add-on; what is
    recorded for the other add-on has no part.  [SetKubeadmConfigChecksum]
    replaces the fingerprint and nothing else. *)
Theorem addon_status_gate r tcp :
  (r_KubeadmAddon r = AddonCoreDNS ->
   (ShouldStatusBeUpdated r tcp = true <->
    Addon_Checksum (Status_CoreDNS (Status_Addons (Status tcp)))
    <> kubeadmConfigChecksum r))
  /\ (r_KubeadmAddon r = AddonKubeProxy ->
      (ShouldStatusBeUpdated r tcp = true <->
       Addon_Checksum (Status_KubeProxy (Status_Addons (Status tcp)))
       <> kubeadmConfigChecksum r))
  /\ (forall c,
        kubeadmConfigChecksum (SetKubeadmConfigChecksum r c) = c
        /\ r_KubeadmAddon (SetKubeadmConfigChecksum r c) = r_KubeadmAddon r
        /\ Name (SetKubeadmConfigChecksum r c) = Name r).
Proof.
  unfold ShouldStatusBeUpdated, isStatusEqual, GetStatus,
    AddonCoreDNS, AddonKubeProxy.
  split; [ | split; [ | done]].
  - intros ->. simpl. rewrite negb_true_iff. apply String.eqb_neq.
  - intros ->. simpl. rewrite negb_true_iff. apply String.eqb_neq.
Qed.

(** The four selectors and [String] read the discriminant alike: each of
    them fails exactly when the discriminant is neither the DNS nor the proxy
    add-on, a selector that fails returns no value and one that succeeds
    returns one, and for either add-on the status, installer and remover
    selected are those of that add-on. *)
Theorem selectors_agree r tcp :
  let known :=
    r_KubeadmAddon r = AddonCoreDNS \/ r_KubeadmAddon r = AddonKubeProxy in
  (is_Some (KubeadmAddon_String (r_KubeadmAddon r)) <-> known)
  /\ ((GetStatus r tcp).2 = None <-> known)
  /\ ((getSpec r tcp).2 = None <-> known)
  /\ ((GetKubeadmFunction r).2 = None <-> known)
  /\ ((getRemoveAddonFunction r).2 = None <-> known)
  /\ (is_Some (GetStatus r tcp).1 <-> (GetStatus r tcp).2 = None)
  /\ (is_Some (GetKubeadmFunction r).1 <-> (GetKubeadmFunction r).2 = None)
  /\ (is_Some (getRemoveAddonFunction r).1
      <-> (getRemoveAddonFunction r).2 = None)
  /\ (r_KubeadmAddon r = AddonCoreDNS ->
      GetStatus r tcp = (Some RefCoreDNS, None)
      /\ GetKubeadmFunction r = (Some AddCoreDNS, None)
      /\ getRemoveAddonFunction r = (Some RemoveCoreDNSAddon, None))
  /\ (r_KubeadmAddon r = AddonKubeProxy ->
      GetStatus r tcp = (Some RefKubeProxy, None)
      /\ GetKubeadmFunction r = (Some AddKubeProxy, None)
      /\ getRemoveAddonFunction r = (Some RemoveKubeProxy, None)).
Proof.
  cbv zeta.
  destruct (decide (r_KubeadmAddon r = AddonCoreDNS)) as [H0 | H0];
    [ | destruct (decide (r_KubeadmAddon r = AddonKubeProxy)) as [H1 | H1]].
  - unfold GetStatus, getSpec, GetKubeadmFunction, getRemoveAddonFunction.
    rewrite H0. simpl. unfold AddonCoreDNS, AddonKubeProxy.
    repeat split; try done; try (by left); try (by eexists).
  - unfold GetStatus, getSpec, GetKubeadmFunction, getRemoveAddonFunction.
    rewrite H1. simpl. unfold AddonCoreDNS, AddonKubeProxy.
    repeat split; try done; try (by right); try (by eexists).
  - rewrite (KubeadmAddon_String_unknown _ H0 H1).
    unfold GetStatus, getSpec, GetKubeadmFunction, getRemoveAddonFunction,
      AddonCoreDNS, AddonKubeProxy in *.
    case_addon r; try contradiction; simpl.
    all: repeat split; try done; try tauto; try (by intros [? ?]).
Qed.

(** For the DNS and the proxy add-on [CleanUp] returns, and hands back the
    tenant object as it was.  When the tenant client cannot be built it
    returns that error with no remover run: the cluster is as the attempt
    left it.  Otherwise the one remover that ran is the remover of the
    resource's own add-on. *)
Theorem CleanUp_runs_own_remover env r st
    (Hknown : r_KubeadmAddon r = AddonCoreDNS
              \/ r_KubeadmAddon r = AddonKubeProxy) :
  let fetched := external (GetTenantClientSet env (tenant st)) st in
  let out := CleanUp env r st in
  (exists res, out.1 = Returned res)
  /\ tenant out.2 = tenant st
  /\ (forall err, fetched.1.2 = Some err ->
        out.1 = Returned (false, Some err)
        /\ cluster out.2 = cluster fetched.2)
  /\ (fetched.1.2 = None ->
      (r_KubeadmAddon r = AddonCoreDNS ->
       cluster out.2
       = (kubeadm_RemoveCoreDNSAddon env fetched.1.1 (cluster fetched.2)).2)
      /\ (r_KubeadmAddon r = AddonKubeProxy ->
          cluster out.2
          = (kubeadm_RemoveKubeProxy env fetched.1.1 (cluster fetched.2)).2)).
Proof.
  cbv zeta.
  unfold CleanUp, getRemoveAddonFunction, call_remover, external, bind, gets,
    ret, logger_Error, modify, AddonCoreDNS, AddonKubeProxy in *.
  destruct Hknown as [-> | ->]; simpl.
  - destruct (GetTenantClientSet env (tenant st) (cluster st))
      as [[c [e|]] k1]; simpl.
    + split; [by eexists | ]. split; [done | ]. split; [ | done].
      by intros ? [= <-].
    + destruct (kubeadm_RemoveCoreDNSAddon env c k1) as [[e|] k2]; simpl;
        [destruct (IsNotFound e); simpl | ].
      all: split; [by eexists | ]; split; [done | ]; split; [done | ].
      all: intros _; split; [done | discriminate].
  - destruct (GetTenantClientSet env (tenant st) (cluster st))
      as [[c [e|]] k1]; simpl.
    + split; [by eexists | ]. split; [done | ]. split; [ | done].
      by intros ? [= <-].
    + destruct (kubeadm_RemoveKubeProxy env c k1) as [[e|] k2]; simpl;
        [destruct (IsNotFound e); simpl | ].
      all: split; [by eexists | ]; split; [done | ]; split; [done | ].
      all: intros _; split; [discriminate | done].
Qed.

(** For the DNS and the proxy add-on [UpdateTenantControlPlaneStatus] returns
    nil and writes the status of the resource's own add-on only, through the
    pointer [GetStatus] selects: with [SetChecksum] storing the fingerprint,
    the fingerprint recorded for that add-on is the resource's, the other
    add-on's status, the storage status, the spec and the cluster are as they
    were, and the resource no longer finds its status in need of an
    update. *)
Theorem addon_status_update r st
    (Hknown : r_KubeadmAddon r = AddonCoreDNS
              \/ r_KubeadmAddon r = AddonKubeProxy) :
  let out := UpdateTenantControlPlaneStatus r st in
  out.1 = Returned None
  /\ cluster out.2 = cluster st /\ logged out.2 = logged st
  /\ Namespace (tenant out.2) = Namespace (tenant st)
  /\ Spec (tenant out.2) = Spec (tenant st)
  /\ Status_Storage (Status (tenant out.2))
     = Status_Storage (Status (tenant st))
  /\ ShouldStatusBeUpdated r (tenant out.2) = false
  /\ (r_KubeadmAddon r = AddonCoreDNS ->
      Addon_Checksum (Status_CoreDNS (Status_Addons (Status (tenant out.2))))
      = kubeadmConfigChecksum r
      /\ Status_KubeProxy (Status_Addons (Status (tenant out.2)))
         = Status_KubeProxy (Status_Addons (Status (tenant st))))
  /\ (r_KubeadmAddon r = AddonKubeProxy ->
      Addon_Checksum (Status_KubeProxy (Status_Addons (Status (tenant out.2))))
      = kubeadmConfigChecksum r
      /\ Status_CoreDNS (Status_Addons (Status (tenant out.2)))
         = Status_CoreDNS (Status_Addons (Status (tenant st)))).
Proof.
  cbv zeta.
  unfold UpdateTenantControlPlaneStatus, ShouldStatusBeUpdated, isStatusEqual,
    GetStatus, bind, gets, ret, modify, AddonCoreDNS, AddonKubeProxy in *.
  destruct Hknown as [-> | ->]; simpl.
  - do 6 (split; [reflexivity | ]).
    split; [by rewrite String.eqb_refl | ]. split; [done | discriminate].
  - do 6 (split; [reflexivity | ]).
    split; [by rewrite String.eqb_refl | ]. split; [discriminate | done].
Qed.

End Addon.

End AddonCycle.

(** * The further properties on concrete inputs *)

Module CycleScenarios.
Import v1alpha1 controllerutil utils DatastoreSetup Fixtures Tactics.
Import StoreRelations.

(** The first provisioning of [tenantA] on an empty, reachable datastore:
    the second call is a no-op. *)
Lemma provisioning_converges_witness :
  reachable MemStore.empty
  /\ drifted (tenant_with nothing_recorded "" "cfgHash1") = false
  /\ (CreateOrUpdate (setup_for tenantA)
        (CreateOrUpdate (setup_for tenantA)
           (state_of (tenant_with nothing_recorded "" "cfgHash1")
                     MemStore.empty)).2).1
     = (OperationResultNone, None).
Proof.
  split; [reflexivity | ]. split; [reflexivity | ].
  destruct (MemStoreFacts.provisioning_converges tenantA
              (state_of (tenant_with nothing_recorded "" "cfgHash1")
                        MemStore.empty) eq_refl eq_refl)
    as (_ & _ & _ & _ & _ & H & _).
  exact H.
Defined.

(** The rotation of [tenantA]'s password from [secret1] to [secret2]. *)
Lemma repair_takes_two_cycles_witness :
  reachable (provisioned tenantA)
  /\ drifted (tenant_with tenantA "cfgHash1" "cfgHash2") = true
  /\ MemStore.users (provisioned tenantA) !! "u1" = Some "secret1"
  /\ MemStore.users
       (world (CreateOrUpdate (setup_for tenantA_rotated)
          (UpdateTenantControlPlaneStatus (setup_for tenantA_rotated) 1%Z
             (CreateOrUpdate (setup_for tenantA_rotated)
                (state_of (tenant_with tenantA "cfgHash1" "cfgHash2")
                          (provisioned tenantA))).2).2).2)
       !! "u1"
     = Some "secret2".
Proof.
  split; [reflexivity | ]. split; [reflexivity | ].
  split; [vm_compute; reflexivity | ].
  destruct (MemStoreFacts.repair_takes_two_cycles tenantA_rotated 1%Z
              (state_of (tenant_with tenantA "cfgHash1" "cfgHash2")
                        (provisioned tenantA)) eq_refl eq_refl)
    as (_ & _ & _ & _ & H).
  exact H.
Defined.

End CycleScenarios.

Module AddonCycleScenarios.
Import v1alpha1 KubeadmAddons Fixtures.

(** The proxy resource cleaning up a cluster that runs both add-ons: the
    DNS add-on stays. *)
Lemma CleanUp_runs_own_remover_witness :
  r_KubeadmAddon (addon AddonKubeProxy) = AddonKubeProxy
  /\ cluster (CleanUp FakeCluster.env (addon AddonKubeProxy)
       (cluster_state (tenant_addons (Some addonSpec) None "" "kubeadmHash1")
          {| FakeCluster.installed := ["coredns"; "kube-proxy"];
             FakeCluster.down := false |})).2
     = {| FakeCluster.installed := ["coredns"]; FakeCluster.down := false |}.
Proof.
  split; [reflexivity | ].
  destruct (AddonCycle.CleanUp_runs_own_remover FakeCluster.env
              (addon AddonKubeProxy)
              (cluster_state
                 (tenant_addons (Some addonSpec) None "" "kubeadmHash1")
                 {| FakeCluster.installed := ["coredns"; "kube-proxy"];
                    FakeCluster.down := false |})
              (or_intror eq_refl))
    as (_ & _ & _ & H).
  rewrite (proj2 (H eq_refl) eq_refl). reflexivity.
Defined.

(** The DNS resource recording its fingerprint on a tenant that had none. *)
Lemma addon_status_update_witness :
  r_KubeadmAddon (addon AddonCoreDNS) = AddonCoreDNS
  /\ ShouldStatusBeUpdated (addon AddonCoreDNS)
       (tenant_addons (Some addonSpec) (Some addonSpec) "" "") = true
  /\ ShouldStatusBeUpdated (addon AddonCoreDNS)
       (tenant (UpdateTenantControlPlaneStatus (addon AddonCoreDNS)
          (cluster_state
             (tenant_addons (Some addonSpec) (Some addonSpec) "" "")
             {| FakeCluster.installed := ["coredns"];
                FakeCluster.down := false |})).2)
     = false.
Proof.
  split; [reflexivity | ]. split; [reflexivity | ].
  destruct (AddonCycle.addon_status_update (addon AddonCoreDNS)
              (cluster_state
                 (tenant_addons (Some addonSpec) (Some addonSpec) "" "")
                 {| FakeCluster.installed := ["coredns"];
                    FakeCluster.down := false |})
              (or_introl eq_refl))
    as (_ & _ & _ & _ & _ & _ & H & _).
  exact H.
Defined.

End AddonCycleScenarios.
